(** * Local-mode overrides of the chat extension: a shallow embedding

    The development follows the TypeScript sources of the local mode:

    - [LocalLlmEndpoint] and [createLocalModelMetadata]
      (platform/endpoint/node/localLlmEndpoint),
    - [LocalEndpointProvider],
    - [FakeGitHubAuthenticationProvider] and [NullAuthenticationService]
      (platform/authentication),
    - [NullChatQuotaService] (platform/chat/common/nullChatQuotaService.ts),
    - [NullAutomodeService] (platform/endpoint/node/nullAutomodeService.ts),
    - [NullCAPIClientImpl].

    Methods are embedded in a small monad [M S A] that threads the fields of
    the receiver ([this]), records the calls made to collaborators of the
    host (fetcher, SSE processor, callbacks, log service) in a trace, and
    carries JavaScript exceptions / promise rejections as [Throw]. *)

From Stdlib Require Import ZArith QArith.
From stdpp Require Import base option list strings gmap pretty.

Set Warnings "-register-all".

Open Scope Z_scope.
Open Scope string_scope.
Open Scope list_scope.

(** ** JavaScript values and errors *)

(** JSON values as produced by [JSON.parse], plus [undefined], which a
    property read of an absent key yields.  Fields that the code only copies
    (role, content, usage, ...) are kept at this type. *)
Inductive JSValue : Type :=
| JSUndefined
| JSNull
| JSBool (b : bool)
| JSNumber (n : Q)
| JSString (s : string)
| JSArray (items : list JSValue)
| JSObject (props : list (string * JSValue)).

(** A plain object such as a chat message: its own enumerable properties,
    in insertion order. *)
Abbreviation JSProps := (list (string * JSValue)).

(** [delete obj[key]] *)
Definition js_delete (key : string) (obj : JSProps) : JSProps :=
  filter (fun p => p.1 ≠ key) obj.

(** [obj[key]], [undefined] when the key is absent. *)
Fixpoint js_get (key : string) (obj : JSProps) : JSValue :=
  match obj with
  | [] => JSUndefined
  | (k, v) :: rest => if decide (k = key) then v else js_get key rest
  end.

(** Exceptions: [new Error(msg)], the [TypeError] of a property read on
    [undefined]/[null], the [SyntaxError] of [JSON.parse]. *)
Inductive JsError : Type :=
| Error (message : string)
| TypeError (message : string)
| SyntaxError (message : string).

Definition error_message (e : JsError) : string :=
  match e with Error m | TypeError m | SyntaxError m => m end.

(** [String.prototype.includes]: [needle] occurs in [s] at some offset. *)
Fixpoint includes (s needle : string) : bool :=
  String.prefix needle s ||
  match s with
  | EmptyString => false
  | String _ s' => includes s' needle
  end.

(** [a ?? b] *)
Definition nullish {A} (a : option A) (b : A) : A :=
  match a with Some x => x | None => b end.

(** [s || dflt] on [string | null]: the empty string is falsy. *)
Definition str_or (s : option string) (dflt : string) : string :=
  match s with
  | Some x => if decide (x = "") then dflt else x
  | None => dflt
  end.

(** [!!b] on [boolean | undefined] *)
Definition truthy (b : option bool) : bool := nullish b false.

(** ** Wire types *)

Record ICopilotToolCall := {
  tool_name : string;
  tool_arguments : string;
  tool_id : string;
}.

(** The delta handed to a [FinishedCallback]; only the two properties the
    endpoint sets are modelled. *)
Record IResponseDelta := {
  delta_text : string;
  delta_copilotToolCalls : list ICopilotToolCall;
}.

(** A [FinishedCallback] is observed through whether its promise resolves
    ([None]) or rejects; the endpoint discards the resolved value. *)
Definition FinishedCallback := string → nat → IResponseDelta → option JsError.

(** [() => { }] *)
Definition noop_callback : FinishedCallback := fun _ _ _ => None.

Record FetchOptions := {
  fetch_method : string;
  fetch_headers : list (string * string);
  fetch_body : string;
}.

(** The body of a chat-completions reply after [JSON.parse], at the shape
    the endpoint reads it: [choices], [toolCalls] and [tool_calls] are arrays
    of objects when present.  A property read through [?.] or [??] is
    optional, [None] standing for absent or [null]; so is [message], whose
    absence makes the read of [choice.message.role] throw. *)
Record ToolFunctionJson := {
  fn_name : option string;
  fn_arguments : option string;
}.

Record ToolCallJson := {
  tc_id : option string;
  tc_function : option ToolFunctionJson;
}.

Record MessageJson := {
  mj_role : JSValue;
  mj_content : JSValue;
  mj_name : JSValue;
  mj_toolCalls : option (list ToolCallJson);
  mj_tool_calls : option (list ToolCallJson);
}.

Record ChoiceJson := {
  cj_message : option MessageJson;
  cj_finish_reason : JSValue;
}.

Record CompletionsJson := {
  rj_choices : option (list ChoiceJson);
  rj_model : JSValue;
  rj_usage : JSValue;
  rj_id : JSValue;
  rj_created : JSValue;
}.

(** What [JSON.parse(await response.text())] evaluates to. *)
Inductive ParsedBody : Type :=
| NotJson (why : string)          (* JSON.parse throws a SyntaxError *)
| JsonOther (v : JSValue)         (* null, a number, a string, a boolean, an array *)
| JsonObject (r : CompletionsJson).

(** [Response] of the fetcher service. *)
Record Response := {
  ok : bool;
  status : Z;
  statusText : string;
  headers_get : string → option string;   (* [headers.get(name)], [null] as [None] *)
  body : ParsedBody;
}.

(** The fetcher resolves with a response or rejects. *)
Definition IFetcherService := string → FetchOptions → Response + JsError.

(** Handles on host services the endpoint stores but whose behaviour is
    not part of this code. *)
Inductive ITelemetryService := TelemetryServiceRef (n : nat).
Inductive ILogService := LogServiceRef (n : nat).
Inductive ITokenizerProvider := TokenizerProviderRef (n : nat).
Inductive IInstantiationService := InstantiationServiceRef (n : nat).
Inductive TelemetryData : Set := TelemetryDataIssued.
Inductive CancellationToken := CancellationTokenRef (n : nat).

(** ** Effects *)

Inductive Event : Type :=
| EvFetch (url : string) (init : FetchOptions)
| EvText                                         (* response.text() *)
| EvProcessSSE (expectedNumChoices : nat)        (* SSEProcessor.create / processSSE *)
| EvFinishCallback (text : string) (index : nat) (delta : IResponseDelta)
| EvLog (level : string) (msg : string)
| EvFire (what : string).                        (* an in-process event emitter fires *)

Inductive Outcome (A : Type) : Type :=
| Ok (a : A)
| Throw (e : JsError).
Arguments Ok {A} a.
Arguments Throw {A} e.

Record Run (S A : Type) := mkRun {
  final : S;
  trace : list Event;
  outcome : Outcome A;
}.
Arguments mkRun {S A}.
Arguments final {S A}.
Arguments trace {S A}.
Arguments outcome {S A}.

(** A method with receiver state [S] returning (a promise of) [A]. *)
Definition M (S A : Type) : Type := S → Run S A.

Definition ret {S A} (a : A) : M S A := fun s => mkRun s [] (Ok a).

Definition throw {S A} (e : JsError) : M S A := fun s => mkRun s [] (Throw e).

Definition bind {S A B} (m : M S A) (k : A → M S B) : M S B :=
  fun s =>
    let r := m s in
    match outcome r with
    | Ok a => let r' := k a (final r) in
              mkRun (final r') (trace r ++ trace r') (outcome r')
    | Throw e => mkRun (final r) (trace r) (Throw e)
    end.

(** Read a field of [this]. *)
Definition gets {S A} (f : S → A) : M S A := fun s => mkRun s [] (Ok (f s)).

(** Assign the fields of [this]. *)
Definition modify {S} (f : S → S) : M S unit := fun s => mkRun (f s) [] (Ok tt).

(** Record a call on a collaborator. *)
Definition emit {S} (e : Event) : M S unit := fun s => mkRun s [e] (Ok tt).

(** Settle with the result of a promise of a collaborator. *)
Definition settle {S A} (r : A + JsError) : M S A :=
  match r with inl a => ret a | inr e => throw e end.

Declare Scope js_scope.
Delimit Scope js_scope with js.
Notation "'let*' x ':=' m 'in' k" := (bind m (fun x => k))
  (at level 10, x name, m at level 200, k at level 200) : js_scope.
Notation "m ';;' k" := (bind m (fun _ => k))
  (at level 100, k at level 200, right associativity) : js_scope.
Open Scope js_scope.

(** The calls of a trace that went to the fetcher, and to the callback. *)
Definition fetches (t : list Event) : list (string * FetchOptions) :=
  omap (fun e => match e with EvFetch url init => Some (url, init) | _ => None end) t.

Definition callback_calls (t : list Event) : list (string * nat * IResponseDelta) :=
  omap (fun e => match e with
                 | EvFinishCallback text i delta => Some (text, i, delta)
                 | _ => None
                 end) t.

(** The events of response processing: reading the body, running the SSE
    processor, invoking the callback. *)
Definition processing_event (e : Event) : Prop :=
  match e with
  | EvText | EvProcessSSE _ | EvFinishCallback _ _ _ => True
  | _ => False
  end.

(** The events of the non-streaming path. *)
Definition json_event (e : Event) : Prop :=
  match e with
  | EvText | EvFinishCallback _ _ _ => True
  | _ => False
  end.

(** ** Model metadata ([IChatModelInformation]) *)

Inductive TokenizerType := CL100K | O200K.

Record ModelLimits := {
  max_prompt_tokens : option Z;
  max_output_tokens : option Z;
  max_context_window_tokens : option Z;
}.

Record ModelSupports := {
  sup_parallel_tool_calls : option bool;
  sup_tool_calls : option bool;
  sup_streaming : option bool;
  sup_vision : option bool;
  sup_prediction : option bool;
  sup_thinking : option bool;
}.

Record ModelCapabilities := {
  cap_type : string;
  cap_family : string;
  cap_tokenizer : TokenizerType;
  cap_limits : option ModelLimits;
  cap_supports : ModelSupports;
}.

Record IChatModelInformation := {
  info_id : string;
  info_name : string;
  info_version : string;
  model_picker_enabled : bool;
  is_chat_default : bool;
  is_chat_fallback : bool;
  capabilities : ModelCapabilities;
}.

(** [createLocalModelMetadata()] *)
Definition createLocalModelMetadata : IChatModelInformation := {|
  info_id := "local-llm";
  info_name := "Local LLM";
  info_version := "1.0.0";
  model_picker_enabled := true;
  is_chat_default := true;
  is_chat_fallback := true;
  capabilities := {|
    cap_type := "chat";
    cap_family := "local";
    cap_tokenizer := O200K;
    cap_limits := Some {|
      max_prompt_tokens := Some 128000;
      max_output_tokens := Some 16384;
      max_context_window_tokens := Some 128000;
    |};
    cap_supports := {|
      sup_parallel_tool_calls := Some true;
      sup_tool_calls := Some true;
      sup_streaming := Some true;
      sup_vision := Some true;
      sup_prediction := Some false;
      sup_thinking := Some false;
    |};
  |};
|}.

(** ** [LocalLlmEndpoint]: fields and constructor *)

Record LocalLlmEndpoint := {
  modelMetadata : IChatModelInformation;
  model : string;
  name : string;
  version : string;
  family : string;
  tokenizer : TokenizerType;
  showInModelPicker : bool;
  isDefault : bool;
  isFallback : bool;
  supportsToolCalls : bool;
  supportsVision : bool;
  supportsPrediction : bool;
  _serverUrl : string;
  _maxTokens : Z;
  _maxOutputTokens : Z;
  _fetcherService : IFetcherService;
  _telemetryService : ITelemetryService;
  _tokenizerProvider : ITokenizerProvider;
  _logService : ILogService;
}.

Definition new_LocalLlmEndpoint
    (modelMetadata : IChatModelInformation) (serverUrl : string)
    (fetcherService : IFetcherService) (telemetryService : ITelemetryService)
    (tokenizerProvider : ITokenizerProvider) (logService : ILogService)
    : LocalLlmEndpoint :=
  let caps := capabilities modelMetadata in {|
  modelMetadata := modelMetadata;
  _serverUrl := serverUrl;
  _maxTokens := nullish (cap_limits caps ≫= max_prompt_tokens) 128000;
  _maxOutputTokens := nullish (cap_limits caps ≫= max_output_tokens) 16384;
  model := info_id modelMetadata;
  name := info_name modelMetadata;
  version := info_version modelMetadata;
  family := cap_family caps;
  tokenizer := cap_tokenizer caps;
  showInModelPicker := model_picker_enabled modelMetadata;
  isDefault := is_chat_default modelMetadata;
  isFallback := is_chat_fallback modelMetadata;
  supportsToolCalls := truthy (sup_tool_calls (cap_supports caps));
  supportsVision := truthy (sup_vision (cap_supports caps));
  supportsPrediction := truthy (sup_prediction (cap_supports caps));
  _fetcherService := fetcherService;
  _telemetryService := telemetryService;
  _tokenizerProvider := tokenizerProvider;
  _logService := logService;
|}.

(** ** Request bodies *)

Record ICreateEndpointBodyOptions := {
  o_messages : option (list JSProps);
  o_maxOutputTokens : option Z;
  o_temperature : option Q;
  o_topP : option Q;
  o_tools : option (list JSValue);
}.

(** [IEndpointBody], with the properties this endpoint writes or deletes. *)
Record IEndpointBody := {
  b_model : option string;
  b_stream : option bool;
  b_max_tokens : option Z;
  b_temperature : option Q;
  b_top_p : option Q;
  b_tools : option (list JSValue);
  b_messages : option (list JSProps);
  b_snippy : option JSValue;
  b_copilot_thread_id : option JSValue;
  b_copilot_skills : option JSValue;
}.

Definition set_temperature (v : option Q) (b : IEndpointBody) : IEndpointBody :=
  {| b_model := b_model b; b_stream := b_stream b; b_max_tokens := b_max_tokens b;
     b_temperature := v; b_top_p := b_top_p b; b_tools := b_tools b;
     b_messages := b_messages b; b_snippy := b_snippy b;
     b_copilot_thread_id := b_copilot_thread_id b;
     b_copilot_skills := b_copilot_skills b |}.

Definition set_top_p (v : option Q) (b : IEndpointBody) : IEndpointBody :=
  {| b_model := b_model b; b_stream := b_stream b; b_max_tokens := b_max_tokens b;
     b_temperature := b_temperature b; b_top_p := v; b_tools := b_tools b;
     b_messages := b_messages b; b_snippy := b_snippy b;
     b_copilot_thread_id := b_copilot_thread_id b;
     b_copilot_skills := b_copilot_skills b |}.

Definition set_tools (v : option (list JSValue)) (b : IEndpointBody) : IEndpointBody :=
  {| b_model := b_model b; b_stream := b_stream b; b_max_tokens := b_max_tokens b;
     b_temperature := b_temperature b; b_top_p := b_top_p b; b_tools := v;
     b_messages := b_messages b; b_snippy := b_snippy b;
     b_copilot_thread_id := b_copilot_thread_id b;
     b_copilot_skills := b_copilot_skills b |}.

Definition set_messages (v : option (list JSProps)) (b : IEndpointBody) : IEndpointBody :=
  {| b_model := b_model b; b_stream := b_stream b; b_max_tokens := b_max_tokens b;
     b_temperature := b_temperature b; b_top_p := b_top_p b; b_tools := b_tools b;
     b_messages := v; b_snippy := b_snippy b;
     b_copilot_thread_id := b_copilot_thread_id b;
     b_copilot_skills := b_copilot_skills b |}.

(** [delete body['snippy']; delete body['copilot_thread_id'];
     delete body['copilot_skills']] *)
Definition delete_copilot_fields (b : IEndpointBody) : IEndpointBody :=
  {| b_model := b_model b; b_stream := b_stream b; b_max_tokens := b_max_tokens b;
     b_temperature := b_temperature b; b_top_p := b_top_p b; b_tools := b_tools b;
     b_messages := b_messages b; b_snippy := None;
     b_copilot_thread_id := None;
     b_copilot_skills := None |}.

Record OptionalChatRequestParams := {
  rp_max_tokens : option Z;
  rp_temperature : option Q;
  rp_top_p : option Q;
  rp_tools : option (list JSValue);
}.

Record IMakeChatRequestOptions := {
  mo_debugName : string;
  mo_messages : list JSProps;
  mo_finishedCb : option FinishedCallback;
  mo_location : JSValue;
  mo_source : JSValue;
  mo_requestOptions : option OptionalChatRequestParams;
  mo_userInitiatedRequest : option bool;
  mo_telemetryProperties : JSValue;
}.

(** ** Completions *)

Record RequestId := {
  headerRequestId : string;
  gitHubRequestId : string;
  completionId : JSValue;
  created : JSValue;
  deploymentId : string;
  serverExperiments : string;
}.

(** [FinishedCompletion] as yielded by the SSE processor. *)
Record FinishedCompletion := {
  fc_solution_text : list string;      (* solution.text *)
  fc_solution_model : JSValue;         (* solution.model *)
  fc_finishOffset : option Z;
  fc_index : nat;
  fc_filterReason : JSValue;
  fc_reason : JSValue;
  fc_usage : JSValue;
  fc_requestId : option RequestId;
  fc_error : JSValue;
}.

(** [Raw.AssistantChatMessage] *)
Record AssistantChatMessage := {
  am_role : JSValue;
  am_content : JSValue;
  am_name : JSValue;
  am_toolCalls : option (list ToolCallJson);
}.

Record ChatCompletion := {
  blockFinished : bool;
  choiceIndex : nat;
  cc_model : JSValue;
  filterReason : JSValue;
  finishReason : JSValue;
  message : AssistantChatMessage;
  usage : JSValue;
  tokens : list string;
  requestId : option RequestId;
  telemetryData : TelemetryData;
  error : JSValue;
}.

Inductive ChatFetchResponseType := Success | Failed | Canceled.

Record ChatResponse := {
  cr_type : ChatFetchResponseType;
  cr_value : string;
  cr_requestId : string;
  cr_serverRequestId : string;
  cr_usage : JSValue;
  cr_resolvedModel : string;
}.

(** What one run of the SSE processor over a response does, as far as the
    endpoint sees it: the completions it yields and, possibly, the error that
    ends the iteration ([SSEProcessor.create] failing yields nothing). *)
Record SSEResult := {
  sse_yielded : list FinishedCompletion;
  sse_failure : option JsError;
}.

(** ** [LocalLlmEndpoint]: methods *)

Section LocalLlmEndpointMethods.

(** Imports of [localLlmEndpoint.ts] that live outside this code. *)
Variable getTextPart : JSValue → string.      (* chat/common/globalStringUtils *)
Variable generateUuid : nat → string.         (* the uuid drawn in loop iteration [i] *)
Variable JSON_stringify : IEndpointBody → string.
Variable ChatRole_Assistant : JSValue.        (* Raw.ChatRole.Assistant *)
(** [SSEProcessor.create(log, telemetry, n, response, token)] followed by
    [processor.processSSE(finishCallback)]. *)
Variable processSSE :
  ILogService → ITelemetryService → nat → Response →
  option CancellationToken → FinishedCallback → SSEResult.

Abbreviation Method := (M LocalLlmEndpoint).

Definition getExtraHeaders : Method (list (string * string)) :=
  ret [("Content-Type", "application/json")].

Definition modelMaxPromptTokens : Method Z := gets _maxTokens.

Definition maxOutputTokens : Method Z := gets _maxOutputTokens.

Definition urlOrRequestMetadata : Method string :=
  let* serverUrl := gets _serverUrl in
  ret (serverUrl +:+ "/v1/chat/completions").

Definition degradationReason : Method (option string) := ret None.

Definition policy : Method string := ret "enabled".

Definition apiType : Method string := ret "chatCompletions".

(** [const cleaned = { ...msg }; delete cleaned[...]; return cleaned] *)
Definition clean_message (msg : JSProps) : JSProps :=
  let cleaned := msg in
  let cleaned := js_delete "copilot_references" cleaned in
  let cleaned := js_delete "copilot_confirmations" cleaned in
  let cleaned := js_delete "copilot_cache_control" cleaned in
  cleaned.

(** [interceptBody] mutates its argument and returns nothing; the model
    returns the argument as it is after the call. *)
Definition interceptBody (body : option IEndpointBody)
    : Method (option IEndpointBody) :=
  match body with
  | None => ret None
  | Some body =>
      let body := delete_copilot_fields body in
      let body :=
        match b_messages body with
        | Some msgs => set_messages (Some (map clean_message msgs)) body
        | None => body
        end in
      let* supportsToolCalls := gets supportsToolCalls in
      let body := if negb supportsToolCalls then set_tools None body else body in
      ret (Some body)
  end.

Definition createRequestBody (options : ICreateEndpointBodyOptions)
    : Method IEndpointBody :=
  let* this_model := gets model in
  let* this_maxOutputTokens := gets _maxOutputTokens in
  let body := {|
    b_model := Some this_model;
    b_stream := Some true;
    b_max_tokens := Some (nullish (o_maxOutputTokens options) this_maxOutputTokens);
    b_temperature := None; b_top_p := None; b_tools := None; b_messages := None;
    b_snippy := None; b_copilot_thread_id := None; b_copilot_skills := None;
  |} in
  let body :=
    match o_temperature options with
    | Some t => set_temperature (Some t) body
    | None => body
    end in
  let body :=
    match o_topP options with
    | Some p => set_top_p (Some p) body
    | None => body
    end in
  let body :=
    match o_tools options with
    | Some tools => set_tools (Some tools) body
    | None => body
    end in
  let body :=
    match o_messages options with
    | Some msgs => set_messages (Some msgs) body
    | None => body
    end in
  ret body.

(** The body of the [for await] loop of the SSE branch: convert one
    [FinishedCompletion] to a [ChatCompletion]. *)
Definition convert_finished (telemetryData : TelemetryData)
    (finishedCompletion : FinishedCompletion) : ChatCompletion :=
  let messageText := String.concat "" (fc_solution_text finishedCompletion) in
  let message := {|
    am_role := ChatRole_Assistant;
    am_content := JSString messageText;
    am_name := JSUndefined;
    am_toolCalls := None;
  |} in
  {| blockFinished := bool_decide (fc_finishOffset finishedCompletion ≠ None);
     choiceIndex := fc_index finishedCompletion;
     cc_model := fc_solution_model finishedCompletion;
     filterReason := fc_filterReason finishedCompletion;
     finishReason := fc_reason finishedCompletion;
     message := message;
     usage := fc_usage finishedCompletion;
     tokens := fc_solution_text finishedCompletion;
     requestId := fc_requestId finishedCompletion;
     telemetryData := telemetryData;
     error := fc_error finishedCompletion |}.

(** [for await (const finishedCompletion of ...) { ...; completions.push(chatCompletion) }] *)
Fixpoint sse_loop (telemetryData : TelemetryData)
    (yielded : list FinishedCompletion) (completions : list ChatCompletion)
    : list ChatCompletion :=
  match yielded with
  | [] => completions
  | finishedCompletion :: rest =>
      sse_loop telemetryData rest
        (completions ++ [convert_finished telemetryData finishedCompletion])
  end.

(** [for (const tool of message.toolCalls ?? []) functionCall.push({...})] *)
Fixpoint tool_loop (toolCalls : list ToolCallJson)
    (functionCall : list ICopilotToolCall) : list ICopilotToolCall :=
  match toolCalls with
  | [] => functionCall
  | tool :: rest =>
      tool_loop rest
        (functionCall ++
         [{| tool_name := nullish (tc_function tool ≫= fn_name) "";
             tool_arguments := nullish (tc_function tool ≫= fn_arguments) "";
             tool_id := nullish (tc_id tool) "" |}])
  end.

(** The [for (let i = 0; i < choices.length; i++)] loop of
    [processNonStreamingResponse], entered at index [i] with the choices
    from [i] on still to visit.  On a choice without [message] the read of
    [choice.message.role] throws a [TypeError]; its text here is the one for
    an absent [message], and names [null] instead when [message] is
    [null]. *)
Fixpoint choices_loop (response : Response) (jsonResponse : CompletionsJson)
    (finishCallback : FinishedCallback) (telemetryData : TelemetryData)
    (i : nat) (choices : list ChoiceJson) (completions : list ChatCompletion)
    : Method (list ChatCompletion) :=
  match choices with
  | [] => ret completions
  | choice :: rest =>
      match cj_message choice with
      | None =>
          throw (TypeError "Cannot read properties of undefined (reading 'role')")
      | Some choice_message =>
          let message := {|
            am_role := mj_role choice_message;
            am_content := mj_content choice_message;
            am_name := mj_name choice_message;
            am_toolCalls :=
              match mj_toolCalls choice_message with
              | Some calls => Some calls
              | None => mj_tool_calls choice_message
              end;
          |} in
          let messageText := getTextPart (am_content message) in
          let requestId :=
            nullish (headers_get response "X-Request-ID") (generateUuid i) in
          let completion := {|
            blockFinished := false;
            choiceIndex := i;
            cc_model := rj_model jsonResponse;
            filterReason := JSUndefined;
            finishReason := cj_finish_reason choice;
            message := message;
            usage := rj_usage jsonResponse;
            tokens := [];
            requestId := Some {|
              headerRequestId := requestId;
              gitHubRequestId := "";
              completionId := rj_id jsonResponse;
              created := rj_created jsonResponse;
              deploymentId := "";
              serverExperiments := "" |};
            telemetryData := telemetryData;
            error := JSUndefined |} in
          let functionCall := tool_loop (nullish (am_toolCalls message) []) [] in
          let delta := {| delta_text := messageText;
                          delta_copilotToolCalls := functionCall |} in
          emit (EvFinishCallback messageText i delta) ;;
          match finishCallback messageText i delta with
          | Some rejection => throw rejection
          | None =>
              choices_loop response jsonResponse finishCallback telemetryData
                (S i) rest (completions ++ [completion])
          end
      end
  end.

Definition processNonStreamingResponse (response : Response)
    (finishCallback : FinishedCallback) (telemetryData : TelemetryData)
    : Method (list ChatCompletion) :=
  emit EvText ;;
  match body response with
  | NotJson why => throw (SyntaxError why)
  | JsonOther _ => ret []
  | JsonObject jsonResponse =>
      choices_loop response jsonResponse finishCallback telemetryData
        0%nat (nullish (rj_choices jsonResponse) []) []
  end.

Definition acceptChatPolicy : Method bool := ret true.

Definition processResponseFromChatEndpoint
    (telemetryService : ITelemetryService) (logService : ILogService)
    (response : Response) (expectedNumChoices : nat)
    (finishCallback : FinishedCallback) (telemetryData : TelemetryData)
    (cancellationToken : option CancellationToken)
    : Method (list ChatCompletion) :=
  let contentType := str_or (headers_get response "content-type") "" in
  if includes contentType "text/event-stream" then
    emit (EvProcessSSE expectedNumChoices) ;;
    let processor :=
      processSSE logService telemetryService expectedNumChoices response
        cancellationToken finishCallback in
    let completions := sse_loop telemetryData (sse_yielded processor) [] in
    match sse_failure processor with
    | Some e => throw e
    | None => ret completions
    end
  else
    processNonStreamingResponse response finishCallback telemetryData.

(** [for await (const completion of completions) { messageText = ...;
    requestId = ...; usage = ... }] *)
Definition extract_loop (completions : list ChatCompletion)
    : string * string * JSValue :=
  foldl
    (fun '(_, _, _) completion =>
       (getTextPart (am_content (message completion)),
        str_or (headerRequestId <$> requestId completion) "",
        usage completion))
    ("", "", JSUndefined) completions.

Definition makeChatRequest2 (options : IMakeChatRequestOptions)
    (token : CancellationToken) : Method ChatResponse :=
  let requestOptions := mo_requestOptions options in
  let* body := createRequestBody {|
    o_messages := Some (mo_messages options);
    o_maxOutputTokens := requestOptions ≫= rp_max_tokens;
    o_temperature := requestOptions ≫= rp_temperature;
    o_topP := requestOptions ≫= rp_top_p;
    o_tools := requestOptions ≫= rp_tools;
  |} in
  let* intercepted := interceptBody (Some body) in
  let body := nullish intercepted body in
  let* url := urlOrRequestMetadata in
  let* headers := getExtraHeaders in
  let init := {| fetch_method := "POST";
                 fetch_headers := headers;
                 fetch_body := JSON_stringify body |} in
  let* fetcherService := gets _fetcherService in
  emit (EvFetch url init) ;;
  let* response := settle (fetcherService url init) in
  if negb (ok response) then
    throw (Error ("Local LLM request failed: " +:+ pretty (status response)
                  +:+ " " +:+ statusText response))
  else
    let telemetryData := TelemetryDataIssued in
    let finishedCb := nullish (mo_finishedCb options) noop_callback in
    let* telemetryService := gets _telemetryService in
    let* logService := gets _logService in
    let* completions :=
      processResponseFromChatEndpoint telemetryService logService response
        1%nat finishedCb telemetryData (Some token) in
    let '(messageText, requestId, usage) := extract_loop completions in
    let* this_model := gets model in
    ret {| cr_type := Success;
           cr_value := messageText;
           cr_requestId := requestId;
           cr_serverRequestId := requestId;
           cr_usage := usage;
           cr_resolvedModel := this_model |}.

Definition makeChatRequest (debugName : string) (messages : list JSProps)
    (finishedCb : option FinishedCallback) (token : CancellationToken)
    (location : JSValue) (source : JSValue)
    (requestOptions : option OptionalChatRequestParams)
    (userInitiatedRequest : option bool) (telemetryProperties : JSValue)
    : Method ChatResponse :=
  makeChatRequest2 {|
    mo_debugName := debugName;
    mo_messages := messages;
    mo_finishedCb := finishedCb;
    mo_location := location;
    mo_source := source;
    mo_requestOptions := requestOptions;
    mo_userInitiatedRequest := userInitiatedRequest;
    mo_telemetryProperties := telemetryProperties;
  |} token.

(** [{ ...metadata, capabilities: { ...capabilities, limits: { ...limits,
    max_prompt_tokens } } }] handed to a new endpoint. *)
Definition cloneWithTokenOverride (modelMaxPromptTokens : Z)
    : Method LocalLlmEndpoint :=
  let* metadata := gets modelMetadata in
  let caps := capabilities metadata in
  let clonedMetadata := {|
    info_id := info_id metadata;
    info_name := info_name metadata;
    info_version := info_version metadata;
    model_picker_enabled := model_picker_enabled metadata;
    is_chat_default := is_chat_default metadata;
    is_chat_fallback := is_chat_fallback metadata;
    capabilities := {|
      cap_type := cap_type caps;
      cap_family := cap_family caps;
      cap_tokenizer := cap_tokenizer caps;
      cap_limits := Some {|
        max_prompt_tokens := Some modelMaxPromptTokens;
        max_output_tokens := cap_limits caps ≫= max_output_tokens;
        max_context_window_tokens := cap_limits caps ≫= max_context_window_tokens;
      |};
      cap_supports := cap_supports caps;
    |};
  |} in
  let* serverUrl := gets _serverUrl in
  let* fetcherService := gets _fetcherService in
  let* telemetryService := gets _telemetryService in
  let* tokenizerProvider := gets _tokenizerProvider in
  let* logService := gets _logService in
  ret (new_LocalLlmEndpoint clonedMetadata serverUrl fetcherService
         telemetryService tokenizerProvider logService).

(** *** Notions the properties of the endpoint are stated with *)

(** The choices the non-streaming loop ranges over:
    [jsonResponse?.choices], none when that is [undefined]. *)
Definition response_choices (response : Response) : list ChoiceJson :=
  match body response with
  | JsonObject jsonResponse => nullish (rj_choices jsonResponse) []
  | _ => []
  end.




(** The response has a [content-type] header whose value contains [needle]. *)
Definition content_type_contains (response : Response) (needle : string) : Prop :=
  ∃ value before after,
    headers_get response "content-type" = Some value
    ∧ value = before +:+ needle +:+ after.


(** The options [makeChatRequest2] hands to [createRequestBody]. *)
Definition body_options (options : IMakeChatRequestOptions)
    : ICreateEndpointBodyOptions :=
  {| o_messages := Some (mo_messages options);
     o_maxOutputTokens := mo_requestOptions options ≫= rp_max_tokens;
     o_temperature := mo_requestOptions options ≫= rp_temperature;
     o_topP := mo_requestOptions options ≫= rp_top_p;
     o_tools := mo_requestOptions options ≫= rp_tools |}.

(** The [ChatResponse] [makeChatRequest2] returns once the completions are
    in. *)
Definition chat_response (this : LocalLlmEndpoint)
    (completions : list ChatCompletion) : ChatResponse :=
  let '(messageText, requestId, usage) := extract_loop completions in
  {| cr_type := Success;
     cr_value := messageText;
     cr_requestId := requestId;
     cr_serverRequestId := requestId;
     cr_usage := usage;
     cr_resolvedModel := model this |}.

(** The error thrown for a response whose [ok] is false. *)
Definition failed_status (response : Response) : JsError :=
  Error ("Local LLM request failed: " +:+ pretty (status response)
         +:+ " " +:+ statusText response).

(** What the fetcher answered to the requests of a trace. *)
Definition fetch_replies (this : LocalLlmEndpoint) (t : list Event)
    : list (Response + JsError) :=
  map (fun '(url, init) => _fetcherService this url init) (fetches t).

End LocalLlmEndpointMethods.

(** ** [LocalEndpointProvider] *)

(** Endpoint objects live in a store; a reference is the position at which
    [new LocalLlmEndpoint(...)] placed the object. *)
Definition EndpointRef := nat.

Record LocalEndpointProvider := {
  lep_serverUrl : string;                       (* _serverUrl *)
  lep_chatEndpoint : option EndpointRef;        (* _chatEndpoint *)
  lep_fetcherService : IFetcherService;
  lep_telemetryService : ITelemetryService;
  lep_tokenizerProvider : ITokenizerProvider;
  lep_logService : ILogService;
}.

(** The provider together with the objects allocated so far. *)
Record ProviderWorld := {
  store : list LocalLlmEndpoint;
  provider : LocalEndpointProvider;
}.

(** [serverUrl || 'http://127.0.0.1:8777'] and the other constructor
    assignments; the constructor also logs one [info] line. *)
Definition new_LocalEndpointProvider (serverUrl : string)
    (fetcherService : IFetcherService) (telemetryService : ITelemetryService)
    (tokenizerProvider : ITokenizerProvider) (logService : ILogService)
    : LocalEndpointProvider :=
  {| lep_serverUrl := str_or (Some serverUrl) "http://127.0.0.1:8777";
     lep_chatEndpoint := None;
     lep_fetcherService := fetcherService;
     lep_telemetryService := telemetryService;
     lep_tokenizerProvider := tokenizerProvider;
     lep_logService := logService |}.

(** [new LocalLlmEndpoint(...)]: the object gets a reference no earlier
    object has. *)
Definition alloc_endpoint (obj : LocalLlmEndpoint) : M ProviderWorld EndpointRef :=
  let* objects := gets store in
  modify (fun w => {| store := store w ++ [obj]; provider := provider w |}) ;;
  ret (length objects).

(** [this._chatEndpoint = endpoint] *)
Definition assign_chatEndpoint (endpoint : EndpointRef) : M ProviderWorld unit :=
  modify (fun w =>
    {| store := store w;
       provider :=
         {| lep_serverUrl := lep_serverUrl (provider w);
            lep_chatEndpoint := Some endpoint;
            lep_fetcherService := lep_fetcherService (provider w);
            lep_telemetryService := lep_telemetryService (provider w);
            lep_tokenizerProvider := lep_tokenizerProvider (provider w);
            lep_logService := lep_logService (provider w) |} |}).

Definition getOrCreateLocalEndpoint : M ProviderWorld EndpointRef :=
  let* this := gets provider in
  match lep_chatEndpoint this with
  | None =>
      let modelMetadata := createLocalModelMetadata in
      let* endpoint :=
        alloc_endpoint
          (new_LocalLlmEndpoint modelMetadata (lep_serverUrl this)
             (lep_fetcherService this) (lep_telemetryService this)
             (lep_tokenizerProvider this) (lep_logService this)) in
      assign_chatEndpoint endpoint ;;
      ret endpoint
  | Some endpoint => ret endpoint
  end.

Definition getChatEndpoint (_requestOrFamilyOrModel : JSValue)
    : M ProviderWorld EndpointRef :=
  emit (EvLog "trace" "LocalEndpointProvider: Resolving chat endpoint to local LLM") ;;
  getOrCreateLocalEndpoint.

Definition getEmbeddingsEndpoint (_family : option string)
    : M ProviderWorld EndpointRef :=
  throw (Error "Embeddings not supported in local mode. Use local indexing instead.").

Definition getAllCompletionModels (_forceRefresh : option bool)
    : M ProviderWorld (list JSValue) :=
  ret [].

Definition getAllChatEndpoints : M ProviderWorld (list EndpointRef) :=
  let* endpoint := getOrCreateLocalEndpoint in
  ret [endpoint].

(** A client of the provider asking for chat endpoints. *)
Inductive ProviderCall :=
| CallGetChatEndpoint (requestOrFamilyOrModel : JSValue)
| CallGetAllChatEndpoints.

(** The endpoint objects a call hands out. *)
Definition provider_call (c : ProviderCall) : M ProviderWorld (list EndpointRef) :=
  match c with
  | CallGetChatEndpoint arg => let* e := getChatEndpoint arg in ret [e]
  | CallGetAllChatEndpoints => getAllChatEndpoints
  end.

(** Run calls one after the other, collecting what each handed out. *)
Fixpoint provider_calls (cs : list ProviderCall)
    : M ProviderWorld (list (list EndpointRef)) :=
  match cs with
  | [] => ret []
  | c :: rest =>
      let* r := provider_call c in
      let* rs := provider_calls rest in
      ret (r :: rs)
  end.

(** ** Fake authentication *)

Record AuthenticationSessionAccountInformation := {
  account_id : string;
  account_label : string;
}.

Record AuthenticationSession := {
  session_id : string;
  accessToken : string;
  account : AuthenticationSessionAccountInformation;
  scopes : list string;
}.

(** [FakeGitHubAuthenticationProvider]: its only data field.  The class
    exists in two copies that differ in [emitSessionChange] alone, which
    only one of them has; the model follows the larger one. *)
Record FakeGitHubAuthenticationProvider := {
  fake_session : AuthenticationSession;      (* _session *)
}.

Definition SESSION_ID : string := "fake-github-session".

Definition new_FakeGitHubAuthenticationProvider : FakeGitHubAuthenticationProvider :=
  {| fake_session :=
       {| session_id := SESSION_ID;
          accessToken := "fake-github-access-token-for-local-llm";
          account := {| account_id := "local-user"; account_label := "Local LLM User" |};
          scopes := ["user:email"; "read:user"; "repo"; "workflow"] |} |}.

Definition getSessions (_scopes : option (list string))
    : M FakeGitHubAuthenticationProvider (list AuthenticationSession) :=
  let* session := gets fake_session in
  ret [session].

Definition createSession (_scopes : list string)
    : M FakeGitHubAuthenticationProvider AuthenticationSession :=
  gets fake_session.

Definition removeSession (_sessionId : string)
    : M FakeGitHubAuthenticationProvider unit :=
  ret tt.

Definition emitSessionChange : M FakeGitHubAuthenticationProvider unit :=
  emit (EvFire "onDidChangeSessions").

(** The methods a host may call on the provider, results dropped. *)
Inductive FakeProviderCall :=
| CallGetSessions (scopes : option (list string))
| CallCreateSession (scopes : list string)
| CallRemoveSession (sessionId : string)
| CallEmitSessionChange.

Definition fake_provider_call (c : FakeProviderCall)
    : M FakeGitHubAuthenticationProvider unit :=
  match c with
  | CallGetSessions s => getSessions s ;; ret tt
  | CallCreateSession s => createSession s ;; ret tt
  | CallRemoveSession i => removeSession i
  | CallEmitSessionChange => emitSessionChange
  end.

Fixpoint fake_provider_calls (cs : list FakeProviderCall)
    : M FakeGitHubAuthenticationProvider unit :=
  match cs with
  | [] => ret tt
  | c :: rest => fake_provider_call c ;; fake_provider_calls rest
  end.

(** [NullAuthenticationService].  Of the fake Copilot token only the
    fields computed from the clock and the token string are kept. *)
Record CopilotToken := {
  token : string;
  expires_at : Z;
  refresh_in : Z;
}.

Record NullAuthenticationService := {
  _fakeSession : AuthenticationSession;
  _copilotToken : option CopilotToken;
  speculativeDecodingEndpointToken : option string;
}.

Definition new_NullAuthenticationService : NullAuthenticationService :=
  {| _fakeSession :=
       {| session_id := "local-session";
          accessToken := "local-access-token";
          account := {| account_id := "local-user"; account_label := "Local User" |};
          scopes := ["user:email"; "read:user"; "repo"; "workflow"] |};
     _copilotToken := None;
     speculativeDecodingEndpointToken := Some "local-sd-token" |}.

(** [createFakeToken()], [now] being [Date.now()] in milliseconds.  The
    function also renders [new Date(Date.now() + 86400 * 365 * 1000)] with
    [toISOString()], which throws a [RangeError] when that time is not one
    a [Date] can hold; the token made here is the one the code makes at a
    [valid_clock]. *)
Definition createFakeToken (now : Z) : CopilotToken :=
  {| token := "tid=local;exp=9999999999;sku=copilot_enterprise;rt=1;ccr=0;editor_preview_features=1;mcp=1;fcv1=1:local_signature";
     expires_at := now / 1000 + 86400 * 365;
     refresh_in := 86400 * 365 |}.

(** The time values of a [Date]: at most 8.64e15 milliseconds from the
    epoch.  [new Date(t)] is an invalid date outside this range, and
    [toISOString()] throws on it. *)
Definition date_range (t : Z) : Prop :=
  (-8640000000000000 ≤ t)%Z ∧ (t ≤ 8640000000000000)%Z.

(** A clock read at which a fake token can be made: the time and the time
    one year later are both time values of a [Date]. *)
Definition valid_clock (now : Z) : Prop :=
  date_range now ∧ date_range (now + 86400 * 365 * 1000).

Definition assign_copilotToken (t : option CopilotToken)
    : M NullAuthenticationService unit :=
  modify (fun this =>
    {| _fakeSession := _fakeSession this;
       _copilotToken := t;
       speculativeDecodingEndpointToken := speculativeDecodingEndpointToken this |}).

Inductive SessionKind := permissive | any.

Definition anyGitHubSession : M NullAuthenticationService AuthenticationSession :=
  gets _fakeSession.

Definition permissiveGitHubSession
    : M NullAuthenticationService AuthenticationSession :=
  gets _fakeSession.

Definition getGitHubSession (_kind : SessionKind) (_options : JSValue)
    : M NullAuthenticationService AuthenticationSession :=
  gets _fakeSession.

(** The getter [copilotToken]. *)
Definition copilotToken (now : Z) : M NullAuthenticationService CopilotToken :=
  let* cached := gets _copilotToken in
  match cached with
  | None =>
      let fresh := createFakeToken now in
      assign_copilotToken (Some fresh) ;; ret fresh
  | Some t => ret t
  end.

(** [Buffer.from('local-ado-token').toString('base64')] *)
Definition getAdoAccessTokenBase64 (_options : JSValue)
    : M NullAuthenticationService (option string) :=
  ret (Some "bG9jYWwtYWRvLXRva2Vu").

Definition getCopilotToken (now : Z) (_force : option bool)
    : M NullAuthenticationService CopilotToken :=
  let* cached := gets _copilotToken in
  match cached with
  | None =>
      let fresh := createFakeToken now in
      assign_copilotToken (Some fresh) ;; ret fresh
  | Some t => ret t
  end.

Definition resetCopilotToken (_httpError : option Z)
    : M NullAuthenticationService unit :=
  assign_copilotToken None.

Inductive AuthServiceCall :=
| CallGetGitHubSession (kind : SessionKind) (options : JSValue)
| CallCopilotToken (now : Z)
| CallGetCopilotToken (now : Z) (force : option bool)
| CallResetCopilotToken (httpError : option Z)
| CallGetAdoAccessTokenBase64 (options : JSValue).

Definition auth_service_call (c : AuthServiceCall) : M NullAuthenticationService unit :=
  match c with
  | CallGetGitHubSession k o => getGitHubSession k o ;; ret tt
  | CallCopilotToken now => copilotToken now ;; ret tt
  | CallGetCopilotToken now f => getCopilotToken now f ;; ret tt
  | CallResetCopilotToken e => resetCopilotToken e
  | CallGetAdoAccessTokenBase64 o => getAdoAccessTokenBase64 o ;; ret tt
  end.

Fixpoint auth_service_calls (cs : list AuthServiceCall)
    : M NullAuthenticationService unit :=
  match cs with
  | [] => ret tt
  | c :: rest => auth_service_call c ;; auth_service_calls rest
  end.

(** ** [NullChatQuotaService] *)

(** The class declares no data field. *)
Record NullChatQuotaService : Set := mkNullChatQuotaService { }.

Definition quotaExhausted : M NullChatQuotaService bool := ret false.

Definition overagesEnabled : M NullChatQuotaService bool := ret true.

Definition processQuotaHeaders (_headers : string → option string)
    : M NullChatQuotaService unit :=
  ret tt.

Definition clearQuota : M NullChatQuotaService unit := ret tt.

Inductive QuotaCall :=
| CallQuotaExhausted
| CallOveragesEnabled
| CallProcessQuotaHeaders (headers : string → option string)
| CallClearQuota.

Definition quota_call (c : QuotaCall) : M NullChatQuotaService unit :=
  match c with
  | CallQuotaExhausted => quotaExhausted ;; ret tt
  | CallOveragesEnabled => overagesEnabled ;; ret tt
  | CallProcessQuotaHeaders h => processQuotaHeaders h
  | CallClearQuota => clearQuota
  end.

Fixpoint quota_calls (cs : list QuotaCall) : M NullChatQuotaService unit :=
  match cs with
  | [] => ret tt
  | c :: rest => quota_call c ;; quota_calls rest
  end.

(** What a client can observe of the service: its two getters. *)
Definition quota_observation (s : NullChatQuotaService) : Outcome bool * Outcome bool :=
  (outcome (quotaExhausted s), outcome (overagesEnabled s)).

(** ** [NullCAPIClientImpl] *)

Record NullCAPIClientImpl := {
  abExpContext : option string;
}.

Definition proxyBaseURL : M NullCAPIClientImpl string := ret "http://127.0.0.1:8777".

Definition dotcomAPIURL : M NullCAPIClientImpl string := ret "http://127.0.0.1:8777".

Definition capiPingURL : M NullCAPIClientImpl string :=
  ret "http://127.0.0.1:8777/health".

Definition copilotTelemetryURL : M NullCAPIClientImpl string := ret "".

(** [Promise.reject(new Error(...))] *)
Definition makeRequest {T : Type} (_request : JSValue) (_requestMetadata : JSValue)
    : M NullCAPIClientImpl T :=
  throw (Error "CAPI not available in local mode").

Definition updateDomains (_moduleToken _enterpriseValue : option string)
    : M NullCAPIClientImpl bool :=
  ret false.

(** ** [NullAutomodeService] *)

Record DiscountRange := {
  low : Z;
  high : Z;
}.

(** The arguments [createInstance] passes to the constructor of
    [AutoChatEndpoint] ahead of the injected services. *)
Record AutoChatEndpoint (E : Type) := {
  auto_wrappedEndpoint : E;
  auto_sessionToken : string;
  auto_discountPercent : Z;
  auto_discountRange : DiscountRange;
}.
Arguments auto_wrappedEndpoint {E}.
Arguments auto_sessionToken {E}.
Arguments auto_discountPercent {E}.
Arguments auto_discountRange {E}.

Record NullAutomodeService := {
  nas_instantiationService : IInstantiationService;
  nas_logService : ILogService;
}.

Section Automode.

(** Any implementation of [IChatEndpoint]; the service reads its [model]. *)
Variable IChatEndpoint : Type.
Variable endpoint_model : IChatEndpoint → string.

(** [!knownEndpoints.length] holds of the empty array only, and
    [knownEndpoints[0]] is the head of a non-empty one.  [createInstance]
    constructs the [AutoChatEndpoint] from the arguments given. *)
Definition resolveAutoModeEndpoint (_chatRequest : JSValue)
    (knownEndpoints : list IChatEndpoint)
    : M NullAutomodeService (AutoChatEndpoint IChatEndpoint) :=
  match knownEndpoints with
  | [] => throw (Error "No endpoints provided for auto mode.")
  | selectedEndpoint :: _ =>
      emit (EvLog "trace"
              ("NullAutomodeService: Using local endpoint "
               +:+ endpoint_model selectedEndpoint
               +:+ " as auto mode selection")) ;;
      let autoEndpoint := {|
        auto_wrappedEndpoint := selectedEndpoint;
        auto_sessionToken := "local-session-token";
        auto_discountPercent := 0;
        auto_discountRange := {| low := 0; high := 0 |};
      |} in
      ret autoEndpoint
  end.

End Automode.

(** ** The rest of the local mode *)

(** *** The non-streaming loop, one choice at a time *)


(** *** Clients of [LocalEndpointProvider] *)

(** [try { await m } catch (e) { ... }]: the caller keeps going, with
    the result or the error in hand. *)
Definition attempt {S A} (m : M S A) : M S (Outcome A) :=
  fun s => let r := m s in mkRun (final r) (trace r) (Ok (outcome r)).

(** Any of the four methods of the provider. *)
Inductive ProviderOp :=
| OpGetChatEndpoint (requestOrFamilyOrModel : JSValue)
| OpGetAllChatEndpoints
| OpGetEmbeddingsEndpoint (family : option string)
| OpGetAllCompletionModels (forceRefresh : option bool).

Inductive ProviderAnswer :=
| AnsEndpoints (endpoints : list EndpointRef)
| AnsModels (models : list JSValue).

Definition provider_op (op : ProviderOp) : M ProviderWorld ProviderAnswer :=
  match op with
  | OpGetChatEndpoint arg =>
      let* e := getChatEndpoint arg in ret (AnsEndpoints [e])
  | OpGetAllChatEndpoints =>
      let* es := getAllChatEndpoints in ret (AnsEndpoints es)
  | OpGetEmbeddingsEndpoint family =>
      let* e := getEmbeddingsEndpoint family in ret (AnsEndpoints [e])
  | OpGetAllCompletionModels forceRefresh =>
      let* ms := getAllCompletionModels forceRefresh in ret (AnsModels ms)
  end.

(** A client calling the provider again and again, catching what it
    throws. *)
Fixpoint provider_ops (ops : list ProviderOp)
    : M ProviderWorld (list (Outcome ProviderAnswer)) :=
  match ops with
  | [] => ret []
  | op :: rest =>
      let* r := attempt (provider_op op) in
      let* rs := provider_ops rest in
      ret (r :: rs)
  end.

Definition is_chat_op (op : ProviderOp) : bool :=
  match op with
  | OpGetChatEndpoint _ | OpGetAllChatEndpoints => true
  | _ => false
  end.

(** What a provider whose endpoint is [endpoint] answers. *)
Definition provider_answer (endpoint : EndpointRef) (op : ProviderOp)
    : Outcome ProviderAnswer :=
  match op with
  | OpGetChatEndpoint _ | OpGetAllChatEndpoints => Ok (AnsEndpoints [endpoint])
  | OpGetEmbeddingsEndpoint _ =>
      Throw (Error "Embeddings not supported in local mode. Use local indexing instead.")
  | OpGetAllCompletionModels _ => Ok (AnsModels [])
  end.

(** *** [NullCopilotTokenManager] *)

Record QuotaSnapshot := {
  quota_id : string;
  entitlement : Z;
  remaining : Z;
  unlimited : bool;
  overage_count : Z;
  overage_permitted : bool;
  percent_remaining : Z;
}.

Record TokenEndpoints := {
  endpoint_api : string;
  endpoint_telemetry : string;
  endpoint_proxy : string;
}.

Record QuotaSnapshots := {
  quota_chat : QuotaSnapshot;
  quota_completions : QuotaSnapshot;
  quota_premium_interactions : QuotaSnapshot;
}.

Record ExtendedTokenInfo := {
  eti_token : string;
  eti_expires_at : Z;
  eti_refresh_in : Z;
  organization_list : list string;
  enterprise_list : list Z;
  code_quote_enabled : bool;
  public_suggestions : string;
  eti_telemetry : string;
  copilotignore_enabled : bool;
  endpoints : TokenEndpoints;
  chat_enabled : bool;
  individual : bool;
  sku : string;
  username : string;
  isVscodeTeamMember : bool;
  copilot_plan : string;
  blackbird_clientside_indexing : bool;
  codex_agent_enabled : bool;
  quota_snapshots : QuotaSnapshots;
  quota_reset_date : string;
}.

(** [new CopilotToken(info)] *)
Inductive ManagedToken := NewCopilotToken (info : ExtendedTokenInfo).

Definition token_info (t : ManagedToken) : ExtendedTokenInfo :=
  match t with NewCopilotToken info => info end.

Record NullCopilotTokenManager := {
  _fakeToken : option ManagedToken;
}.

Definition new_NullCopilotTokenManager : NullCopilotTokenManager :=
  {| _fakeToken := None |}.

Definition local_quota : QuotaSnapshot :=
  {| quota_id := "local"; entitlement := 999999; remaining := 999999;
     unlimited := true; overage_count := 0; overage_permitted := true;
     percent_remaining := 100 |}.

Section TokenManager.

(** [new Date(ms).toISOString()], for [ms] in [date_range]; outside it
    the call throws a [RangeError]. *)
Variable toISOString : Z → string.

(** [createFakeToken()] of the token manager; [now] and [now'] are what
    the two reads of [Date.now()] return, in milliseconds.  This is the
    token the code makes when [now'] is a [valid_clock]; otherwise
    [toISOString()] throws and no token is made. *)
Definition manager_createFakeToken (now now' : Z) : ManagedToken :=
  let fakeTokenInfo := {|
    eti_token := "tid=local;exp=9999999999;sku=copilot_enterprise;rt=1;ccr=1;editor_preview_features=1;mcp=1;fcv1=1:local_signature";
    eti_expires_at := now / 1000 + 86400 * 365;
    eti_refresh_in := 86400 * 365;
    organization_list := [];
    enterprise_list := [];
    code_quote_enabled := true;
    public_suggestions := "enabled";
    eti_telemetry := "disabled";
    copilotignore_enabled := true;
    endpoints := {| endpoint_api := "http://127.0.0.1:8765";
                    endpoint_telemetry := "";
                    endpoint_proxy := "http://127.0.0.1:8765" |};
    chat_enabled := true;
    individual := false;
    sku := "copilot_enterprise_seat";
    username := "local_user";
    isVscodeTeamMember := true;
    copilot_plan := "enterprise";
    blackbird_clientside_indexing := true;
    codex_agent_enabled := true;
    quota_snapshots := {| quota_chat := local_quota;
                          quota_completions := local_quota;
                          quota_premium_interactions := local_quota |};
    quota_reset_date := toISOString (now' + 86400 * 365 * 1000);
  |} in
  NewCopilotToken fakeTokenInfo.

Definition manager_getCopilotToken (now now' : Z) (_force : option bool)
    : M NullCopilotTokenManager ManagedToken :=
  let* cached := gets _fakeToken in
  match cached with
  | None =>
      let fresh := manager_createFakeToken now now' in
      modify (fun _ => {| _fakeToken := Some fresh |}) ;;
      ret fresh
  | Some t => ret t
  end.

Definition manager_resetCopilotToken (_httpError : option Z)
    : M NullCopilotTokenManager unit :=
  modify (fun _ => {| _fakeToken := None |}).

End TokenManager.

(** *** Context keys of the chat view *)

(** The calls [commands.executeCommand('setContext', key, value)] that
    [setKeys] makes, in the order of the source. *)
Definition setKeys_commands : list (string * bool) :=
  [ ("chatEntitlementSignedOut", false);
    ("chatPlanPro", true);
    ("chatPlanFree", false);
    ("chatPlanBusiness", false);
    ("chatPlanEnterprise", false);
    ("chatPlanProPlus", false);
    ("chatPlanCanSignUp", false);
    ("chatSetupInstalled", true);
    ("chatSetupRegistered", true);
    ("chatSetupHidden", false);
    ("chatSetupDisabled", false);
    ("chatSetupUntrusted", false);
    ("chatSetupLater", false);
    ("chatQuotaExceeded", false);
    ("completionsQuotaExceeded", false);
    ("chatAnonymous", false) ].

(** What the host does with one [setContext] command: the key gets the
    value, whatever it had. *)
Definition setContext (ctx : gmap string bool) (cmd : string * bool)
    : gmap string bool :=
  <[cmd.1 := cmd.2]> ctx.

(** The context keys once the host has run the given commands in order. *)
Definition run_commands (cmds : list (string * bool)) (ctx : gmap string bool)
    : gmap string bool :=
  foldl setContext ctx cmds.

(** [setKeys], which [setLocalModeContextKeys] runs at once, again after
    0.5, 1.5, 3 and 5 seconds, and then every 10 seconds. *)
Definition setKeys (ctx : gmap string bool) : gmap string bool :=
  run_commands setKeys_commands ctx.

(** ** Concrete inputs *)

(** Stand-ins for the imported collaborators, to run the endpoint on
    concrete inputs: the text of a string content, one fixed uuid, a
    serializer that prints the model and the number of messages, the
    assistant role as the string ['assistant'], and an SSE processor that
    yields one finished completion made of the chunks ['Hel'], ['lo']. *)
Definition sample_getTextPart (content : JSValue) : string :=
  match content with JSString s => s | _ => "" end.

Definition sample_generateUuid (i : nat) : string :=
  "00000000-0000-4000-8000-000000000000".

Definition sample_stringify (body : IEndpointBody) : string :=
  "model=" +:+ nullish (b_model body) "" +:+ ";messages="
  +:+ pretty (length (nullish (b_messages body) [])).

Definition sample_role : JSValue := JSString "assistant".

(** A stand-in for [toISOString], which writes the time value in decimal. *)
Definition sample_toISOString (ms : Z) : string := pretty ms.

Definition sample_processSSE (log : ILogService) (telemetry : ITelemetryService)
    (n : nat) (response : Response) (token : option CancellationToken)
    (finishCallback : FinishedCallback) : SSEResult :=
  {| sse_yielded :=
       [{| fc_solution_text := ["Hel"; "lo"]; fc_solution_model := JSUndefined;
           fc_finishOffset := None; fc_index := 0%nat;
           fc_filterReason := JSUndefined; fc_reason := JSString "stop";
           fc_usage := JSUndefined; fc_requestId := None;
           fc_error := JSUndefined |}];
     sse_failure := None |}.

Definition json_headers (name : string) : option string :=
  if decide (name = "content-type") then Some "application/json" else None.

(** HTTP 404 with a body that is not JSON. *)
Definition reply_404 : Response :=
  {| ok := false; status := 404; statusText := "Not Found";
     headers_get := json_headers;
     body := NotJson "Unexpected token 'N'" |}.

(** HTTP 200 whose body is the empty string: [JSON.parse('')] throws. *)
Definition reply_empty_body : Response :=
  {| ok := true; status := 200; statusText := "OK";
     headers_get := json_headers;
     body := NotJson "Unexpected end of JSON input" |}.

(** HTTP 200 with body [{ choices: [ { finish_reason: 'stop' } ] }]: the
    one choice has no [message]. *)
Definition reply_choice_without_message : Response :=
  {| ok := true; status := 200; statusText := "OK";
     headers_get := json_headers;
     body := JsonObject
       {| rj_choices := Some [{| cj_message := None;
                                 cj_finish_reason := JSString "stop" |}];
          rj_model := JSUndefined; rj_usage := JSUndefined;
          rj_id := JSUndefined; rj_created := JSUndefined |} |}.




(** The endpoint of the local mode, talking to a server that gives
    [reply] to every request. *)
Definition endpoint_served_by (reply : Response + JsError) : LocalLlmEndpoint :=
  new_LocalLlmEndpoint createLocalModelMetadata "http://127.0.0.1:8777"
    (fun _ _ => reply) (TelemetryServiceRef 0) (TokenizerProviderRef 0)
    (LogServiceRef 0).

(** One user message, no request options, no callback. *)
Definition plain_request : IMakeChatRequestOptions :=
  {| mo_debugName := "demo";
     mo_messages := [[("role", JSString "user"); ("content", JSString "hi")]];
     mo_finishedCb := None;
     mo_location := JSUndefined; mo_source := JSUndefined;
     mo_requestOptions := None; mo_userInitiatedRequest := None;
     mo_telemetryProperties := JSUndefined |}.

(** HTTP 200 whose JSON body has an empty [choices] array. *)
Definition reply_no_choices : Response :=
  {| ok := true; status := 200; statusText := "OK";
     headers_get := json_headers;
     body := JsonObject
       {| rj_choices := Some [];
          rj_model := JSString "local-llm"; rj_usage := JSUndefined;
          rj_id := JSString "cmpl-0"; rj_created := JSUndefined |} |}.









Definition event_stream_headers (name : string) : option string :=
  if decide (name = "content-type")
  then Some "text/event-stream; charset=utf-8" else None.

(** HTTP 200 announcing an event stream. *)
Definition reply_event_stream : Response :=
  {| ok := true; status := 200; statusText := "OK";
     headers_get := event_stream_headers;
     body := NotJson "Unexpected token 'd'" |}.

(** * Properties *)

(** ** Strings *)

Lemma prefix_app (p s : string) :
  String.prefix p s = true ↔ ∃ rest, s = p +:+ rest.
Proof.
  revert s. induction p as [|c p IH]; intros s.
  - split; [eauto | by destruct s].
  - destruct s as [|d s]; simpl.
    + split; [done | intros [rest H]; discriminate H].
    + destruct (Ascii.ascii_dec c d) as [->|Hne].
      * rewrite IH. split.
        -- intros [rest ->]. by exists rest.
        -- intros [rest H]. injection H as ->. by exists rest.
      * split; [done | intros [rest H]; injection H as Hc _; by destruct Hne].
Qed.



(** [includes] finds exactly the occurrences of the needle. *)
Lemma includes_spec (s needle : string) :
  includes s needle = true ↔ ∃ before after, s = before +:+ needle +:+ after.
Proof.
  induction s as [|c s IH]; cbn [includes].
  - rewrite orb_false_r, prefix_app. split.
    + intros [rest H]. by exists "", rest.
    + intros [[|b before] [after H]]; simpl in H; [by exists after | discriminate H].
  - rewrite orb_true_iff, prefix_app, IH. split.
    + intros [[rest H] | (before & after & H)].
      * by exists "", rest.
      * exists (String c before), after. simpl. by rewrite H.
    + intros [[|b before] [after H]]; simpl in H.
      * left. by exists after.
      * right. injection H as _ H. by exists before, after.
Qed.

(** ** The monad *)

Lemma fetches_cons_fetch url init t :
  fetches (EvFetch url init :: t) = (url, init) :: fetches t.
Proof. reflexivity. Qed.

Lemma fetches_app t1 t2 : fetches (t1 ++ t2) = fetches t1 ++ fetches t2.
Proof. apply omap_app. Qed.

(** ** [LocalLlmEndpoint] *)

Section EndpointProperties.

Variable getTextPart : JSValue → string.
Variable generateUuid : nat → string.
Variable JSON_stringify : IEndpointBody → string.
Variable ChatRole_Assistant : JSValue.
Variable processSSE :
  ILogService → ITelemetryService → nat → Response →
  option CancellationToken → FinishedCallback → SSEResult.

(** *** The loops, as maps *)

Lemma sse_loop_map td yielded completions :
  sse_loop ChatRole_Assistant td yielded completions
  = completions ++ map (convert_finished ChatRole_Assistant td) yielded.
Proof.
  revert completions. induction yielded as [|fc rest IH]; intros completions; simpl.
  - by rewrite app_nil_r.
  - by rewrite IH, <- app_assoc.
Qed.


Lemma emit_then {S A} (e : Event) (k : M S A) (s : S) :
  (emit e ;; k) s = mkRun (final (k s)) (e :: trace (k s)) (outcome (k s)).
Proof. done. Qed.


Lemma json_event_processing t : Forall json_event t → Forall processing_event t.
Proof. intros H. eapply Forall_impl; [exact H | by intros []]. Qed.

Lemma processing_no_fetch t : Forall processing_event t → fetches t = [].
Proof. induction 1 as [|[] t He _ IH]; by try destruct He. Qed.

(** Whatever the choices and the callback, the loop assigns no field of the
    endpoint and talks to nothing but the callback. *)
Lemma choices_loop_frame response jsonResponse finishCallback td choices :
  ∀ i completions this,
    let run := choices_loop getTextPart generateUuid response jsonResponse
                 finishCallback td i choices completions this in
    final run = this ∧ Forall json_event (trace run).
Proof.
  induction choices as [|c rest IH]; intros i completions this; [done|].
  cbn [choices_loop]. destruct (cj_message c) as [m|]; [|done].
  cbv zeta. rewrite emit_then.
  destruct (finishCallback _ _ _); cbn [final trace].
  - split; [done|]. by repeat constructor.
  - match goal with
    | |- context [choices_loop _ _ _ _ _ _ _ _ ?acc _] =>
        destruct (IH (S i) acc this) as [Hf Ht]
    end.
    split; [exact Hf|]. by constructor.
Qed.

Lemma processNonStreamingResponse_frame response finishCallback td this :
  let run := processNonStreamingResponse getTextPart generateUuid response
               finishCallback td this in
  final run = this ∧ Forall json_event (trace run).
Proof.
  unfold processNonStreamingResponse. cbv zeta. rewrite emit_then.
  destruct (body response); cbn [final trace]; try by repeat constructor.
  destruct (choices_loop_frame response r finishCallback td
              (nullish (rj_choices r) []) 0%nat [] this) as [Hf Ht].
  split; [exact Hf|]. by constructor.
Qed.

Lemma processResponseFromChatEndpoint_frame
    telemetry log response n finishCallback td token this :
  let run := processResponseFromChatEndpoint getTextPart generateUuid
               ChatRole_Assistant processSSE telemetry log response n
               finishCallback td token this in
  final run = this ∧ Forall processing_event (trace run).
Proof.
  unfold processResponseFromChatEndpoint. cbv zeta.
  destruct (includes _ _).
  - rewrite emit_then. destruct (sse_failure _); by repeat constructor.
  - destruct (processNonStreamingResponse_frame response finishCallback td this)
      as [Hf Ht].
    split; [exact Hf|]. by apply json_event_processing.
Qed.

(** *** Streaming or not *)

Lemma content_type_test response :
  includes (str_or (headers_get response "content-type") "") "text/event-stream" = true
  ↔ content_type_contains response "text/event-stream".
Proof.
  rewrite includes_spec. unfold content_type_contains, str_or. split.
  - intros (before & after & H).
    destruct (headers_get response "content-type") as [value|].
    + destruct (decide (value = "")) as [->|_].
      * destruct before as [|? ?]; discriminate H.
      * by exists value, before, after.
    + destruct before as [|? ?]; discriminate H.
  - intros (value & before & after & -> & ->). exists before, after.
    destruct (decide _) as [E|_]; [|done].
    destruct before as [|? ?]; discriminate E.
Qed.




(** *** One request *)

Lemma bind_pure {S A B} (m : M S A) (k : A → M S B) s a :
  m s = mkRun s [] (Ok a) → bind m k s = k a s.
Proof. intros H. unfold bind. rewrite H. cbn. by destruct (k a s). Qed.

Lemma bind_cases {S A B} (m : M S A) (k : A → M S B) s :
  bind m k s =
    match outcome (m s) with
    | Ok a => mkRun (final (k a (final (m s))))
                (trace (m s) ++ trace (k a (final (m s))))
                (outcome (k a (final (m s))))
    | Throw e => mkRun (final (m s)) (trace (m s)) (Throw e)
    end.
Proof. reflexivity. Qed.

Lemma createRequestBody_run o this :
  ∃ body, createRequestBody o this = mkRun this [] (Ok body).
Proof. eexists. reflexivity. Qed.

Lemma interceptBody_run body this :
  ∃ body', interceptBody (Some body) this = mkRun this [] (Ok (Some body')).
Proof. eexists. reflexivity. Qed.

Lemma makeChatRequest2_run options token this :
  ∃ body body',
    createRequestBody (body_options options) this = mkRun this [] (Ok body)
    ∧ interceptBody (Some body) this = mkRun this [] (Ok (Some body'))
    ∧ let url := _serverUrl this +:+ "/v1/chat/completions" in
      let init := {| fetch_method := "POST";
                     fetch_headers := [("Content-Type", "application/json")];
                     fetch_body := JSON_stringify body' |} in
      makeChatRequest2 getTextPart generateUuid JSON_stringify ChatRole_Assistant
        processSSE options token this
      = match _fetcherService this url init with
        | inr rejection => mkRun this [EvFetch url init] (Throw rejection)
        | inl response =>
            if ok response then
              let processing :=
                processResponseFromChatEndpoint getTextPart generateUuid
                  ChatRole_Assistant processSSE (_telemetryService this)
                  (_logService this) response 1%nat
                  (nullish (mo_finishedCb options) noop_callback)
                  TelemetryDataIssued (Some token) this in
              mkRun this (EvFetch url init :: trace processing)
                match outcome processing with
                | Ok completions => Ok (chat_response getTextPart this completions)
                | Throw e => Throw e
                end
            else mkRun this [EvFetch url init] (Throw (failed_status response))
        end.
Proof.
  destruct (createRequestBody_run (body_options options) this) as [body Hb].
  destruct (interceptBody_run body this) as [body' Hb'].
  exists body, body'. split_and!; [done|done|]. cbv zeta.
  unfold makeChatRequest2. fold (body_options options).
  rewrite (bind_pure _ _ _ _ Hb). rewrite (bind_pure _ _ _ _ Hb'). cbn [nullish].
  rewrite (bind_pure urlOrRequestMetadata _ _ _ eq_refl).
  rewrite (bind_pure getExtraHeaders _ _ _ eq_refl).
  rewrite (bind_pure (gets _) _ _ _ eq_refl).
  rewrite emit_then.
  destruct (_fetcherService this _ _) as [response|rejection]; [|done].
  rewrite (bind_pure (settle (inl response)) _ _ _ eq_refl).
  destruct (ok response); [|done]. cbn [negb].
  rewrite (bind_pure (gets _) _ _ _ eq_refl).
  rewrite (bind_pure (gets _) _ _ _ eq_refl).
  cbv zeta.
  match goal with |- context [bind ?m _ this] => set (processing := m this) end.
  destruct (processResponseFromChatEndpoint_frame (_telemetryService this)
              (_logService this) response 1%nat
              (nullish (mo_finishedCb options) noop_callback)
              TelemetryDataIssued (Some token) this) as [Hfinal _].
  fold processing in Hfinal.
  rewrite bind_cases. fold processing.
  destruct (outcome processing) as [completions|e]; cbn [final trace outcome].
  - rewrite Hfinal. unfold chat_response.
    destruct (extract_loop getTextPart completions) as [[messageText rid] us].
    cbn. by rewrite app_nil_r.
  - by rewrite Hfinal.
Qed.

Lemma choices_loop_pushes response jsonResponse finishCallback td choices :
  ∀ i completions this result,
    outcome (choices_loop getTextPart generateUuid response jsonResponse
               finishCallback td i choices completions this) = Ok result →
    ∃ pushed, result = completions ++ pushed ∧ length pushed = length choices.
Proof.
  induction choices as [|c rest IH]; intros i completions this result.
  - intros [= <-]. exists []. by rewrite app_nil_r.
  - cbn [choices_loop]. destruct (cj_message c) as [m|]; [|done].
    cbv zeta. rewrite emit_then. cbn [outcome].
    destruct (finishCallback _ _ _); [done|].
    intros H. apply IH in H as (pushed & -> & Hlen).
    eexists (_ :: pushed). rewrite <- app_assoc. split; [done|]. simpl. by rewrite Hlen.
Qed.

(** C8. A chat request assigns no field of the endpoint: after
    [makeChatRequest2], and after [makeChatRequest], the endpoint is the one
    the call started from.  A request therefore runs the same whether or not
    another request went before it, and the completions a response yields are
    those of that response alone: one per finished completion of the stream,
    or one per choice of the JSON body. *)
Theorem requests_leave_endpoint_unchanged this :
  (∀ options token,
     final (makeChatRequest2 getTextPart generateUuid JSON_stringify
              ChatRole_Assistant processSSE options token this) = this)
  ∧ (∀ debugName messages finishedCb token location source requestOptions
       userInitiated telemetryProperties,
     final (makeChatRequest getTextPart generateUuid JSON_stringify
              ChatRole_Assistant processSSE debugName messages finishedCb token
              location source requestOptions userInitiated telemetryProperties
              this) = this)
  ∧ (∀ options1 token1 options2 token2,
     makeChatRequest2 getTextPart generateUuid JSON_stringify ChatRole_Assistant
       processSSE options2 token2
       (final (makeChatRequest2 getTextPart generateUuid JSON_stringify
                 ChatRole_Assistant processSSE options1 token1 this))
     = makeChatRequest2 getTextPart generateUuid JSON_stringify
         ChatRole_Assistant processSSE options2 token2 this)
  ∧ (∀ telemetry log response n finishCallback td token completions,
     let run := processResponseFromChatEndpoint getTextPart generateUuid
                  ChatRole_Assistant processSSE telemetry log response n
                  finishCallback td token this in
     outcome run = Ok completions →
     final run = this
     ∧ length completions =
         if includes (str_or (headers_get response "content-type") "")
              "text/event-stream"
         then length (sse_yielded
                        (processSSE log telemetry n response token finishCallback))
         else length (response_choices response)).
Proof.
  assert (∀ options token,
            final (makeChatRequest2 getTextPart generateUuid JSON_stringify
                     ChatRole_Assistant processSSE options token this) = this)
    as Hframe.
  { intros options token.
    destruct (makeChatRequest2_run options token this) as (b & b' & _ & _ & ->).
    destruct (_fetcherService this _ _) as [response|?]; [|done].
    by destruct (ok response). }
  split_and!.
  - exact Hframe.
  - intros. apply Hframe.
  - intros. by rewrite Hframe.
  - intros telemetry log response n finishCallback td token completions run Hok.
    split; [apply processResponseFromChatEndpoint_frame|].
    subst run. unfold processResponseFromChatEndpoint in Hok.
    destruct (includes _ _).
    + rewrite emit_then in Hok. cbn [outcome] in Hok.
      destruct (sse_failure _); [done|]. injection Hok as <-.
      rewrite sse_loop_map. cbn [app]. by rewrite length_map.
    + unfold processNonStreamingResponse in Hok. rewrite emit_then in Hok.
      cbn [outcome] in Hok. unfold response_choices.
      destruct (body response) as [?|?|jsonResponse]; [done|by injection Hok as <-|].
      by apply choices_loop_pushes in Hok as (pushed & -> & <-).
Qed.

(** C2, as amended.  The one failure [makeChatRequest2] handles itself is
    a non-OK status: when the fetcher answers with [ok = false] the call
    throws [Error('Local LLM request failed: <status> <statusText>')] and
    nothing of the response body has been processed.  When the answer has
    [ok = true] the call raises no error of its own: it returns a [Success]
    response when processing the response returns, and throws exactly the
    error processing throws otherwise. *)
Theorem makeChatRequest2_failure_handling options token this response :
  let run := makeChatRequest2 getTextPart generateUuid JSON_stringify
               ChatRole_Assistant processSSE options token this in
  let processing :=
    processResponseFromChatEndpoint getTextPart generateUuid ChatRole_Assistant
      processSSE (_telemetryService this) (_logService this) response 1%nat
      (nullish (mo_finishedCb options) noop_callback) TelemetryDataIssued
      (Some token) this in
  fetch_replies this (trace run) = [inl response] →
  (ok response = false →
     outcome run = Throw (Error ("Local LLM request failed: "
                                 +:+ pretty (status response)
                                 +:+ " " +:+ statusText response))
     ∧ Forall (fun e => ¬ processing_event e) (trace run))
  ∧ (ok response = true →
     (∀ e, outcome run = Throw e ↔ outcome processing = Throw e)
     ∧ (∀ r, outcome run = Ok r → cr_type r = Success)).
Proof.
  cbv zeta.
  destruct (makeChatRequest2_run options token this) as (b & b' & _ & _ & ->).
  cbv zeta. unfold fetch_replies.
  destruct (_fetcherService this _ _) as [response'|rejection] eqn:Hfetch.
  - assert (∀ t, Forall processing_event t →
                 map (fun '(url, init) => _fetcherService this url init)
                   (fetches (EvFetch (_serverUrl this +:+ "/v1/chat/completions")
                               {| fetch_method := "POST";
                                  fetch_headers := [("Content-Type", "application/json")];
                                  fetch_body := JSON_stringify b' |} :: t))
                 = [inl response'] ) as Hone.
    { intros t Ht. rewrite fetches_cons_fetch, (processing_no_fetch t Ht).
      cbn. by rewrite Hfetch. }
    destruct (ok response') eqn:Hok; cbn [trace outcome].
    + rewrite Hone by apply processResponseFromChatEndpoint_frame.
      intros [= <-]. split; [by rewrite Hok|]. intros _. split.
      * intros e. by destruct (outcome _); split; intros [= ->].
      * intros r. unfold chat_response. destruct (outcome _); [|done].
        destruct (extract_loop _ _) as [[? ?] ?]. by intros [= <-].
    + rewrite (Hone [] (Forall_nil_2 _)). intros [= <-].
      split; [|by rewrite Hok]. intros _. split; [done|].
      constructor; [intros [] | constructor].
  - cbn. by rewrite Hfetch.
Qed.

(** *** The request body *)

Lemma js_get_delete key key' (obj : JSProps) :
  js_get key' (js_delete key obj)
  = if decide (key' = key) then JSUndefined else js_get key' obj.
Proof.
  unfold js_delete. induction obj as [|[k v] rest IH]; [by case_decide|].
  rewrite filter_cons. cbn [fst js_get].
  destruct (decide (k ≠ key)) as [Hne|Heq%dec_stable]; cbn [js_get].
  - rewrite IH. repeat case_decide; congruence.
  - rewrite IH. subst k. repeat case_decide; congruence.
Qed.

(** [clean_message] drops the three Copilot properties and keeps the rest. *)
Lemma clean_message_get key (msg : JSProps) :
  js_get key (clean_message msg)
  = if bool_decide (key ∈ ["copilot_references"; "copilot_confirmations";
                           "copilot_cache_control"])
    then JSUndefined else js_get key msg.
Proof.
  unfold clean_message. rewrite !js_get_delete.
  destruct (decide (key = "copilot_cache_control")) as [->|H1];
    [by rewrite bool_decide_eq_true_2 by set_solver|].
  destruct (decide (key = "copilot_confirmations")) as [->|H2];
    [by rewrite bool_decide_eq_true_2 by set_solver|].
  destruct (decide (key = "copilot_references")) as [->|H3];
    [by rewrite bool_decide_eq_true_2 by set_solver|].
  rewrite bool_decide_eq_false_2; [done|].
  rewrite !elem_of_cons, elem_of_nil. tauto.
Qed.

(** What [interceptBody] leaves of a body. *)
Lemma interceptBody_filters body this filtered :
  outcome (interceptBody (Some body) this) = Ok (Some filtered) →
  b_snippy filtered = None ∧ b_copilot_thread_id filtered = None
  ∧ b_copilot_skills filtered = None
  ∧ b_messages filtered = map clean_message <$> b_messages body
  ∧ b_tools filtered = (if supportsToolCalls this then b_tools body else None)
  ∧ b_model filtered = b_model body ∧ b_stream filtered = b_stream body
  ∧ b_max_tokens filtered = b_max_tokens body
  ∧ b_temperature filtered = b_temperature body
  ∧ b_top_p filtered = b_top_p body.
Proof.
  unfold interceptBody, bind, gets, ret. cbn [outcome final].
  intros [= <-].
  by destruct (b_messages body) eqn:Hm, (supportsToolCalls this); cbn; rewrite ?Hm.
Qed.

(** C3. Every call to [makeChatRequest2] sends exactly one request to the
    fetcher: a POST to the endpoint's server URL followed by
    ['/v1/chat/completions'], whose body is [JSON.stringify] of the body that
    [createRequestBody] builds and [interceptBody] then filters.
    [LocalEndpointProvider] takes ['http://127.0.0.1:8777'] as server URL when
    it is configured with the empty URL, and any other URL as it is; the
    endpoint a provider configured with the empty URL hands out posts to
    ['http://127.0.0.1:8777/v1/chat/completions']. *)
Theorem makeChatRequest2_single_post :
  (∀ options token this, ∃ body filtered,
     outcome (createRequestBody (body_options options) this) = Ok body
     ∧ outcome (interceptBody (Some body) this) = Ok (Some filtered)
     ∧ fetches (trace (makeChatRequest2 getTextPart generateUuid JSON_stringify
                         ChatRole_Assistant processSSE options token this))
       = [(_serverUrl this +:+ "/v1/chat/completions",
           {| fetch_method := "POST";
              fetch_headers := [("Content-Type", "application/json")];
              fetch_body := JSON_stringify filtered |})])
  ∧ (∀ configured fetcher telemetry tokenizer log,
     lep_serverUrl (new_LocalEndpointProvider configured fetcher telemetry
                      tokenizer log)
     = if decide (configured = "") then "http://127.0.0.1:8777" else configured)
  ∧ (∀ fetcher telemetry tokenizer log objects options token,
     let created :=
       getOrCreateLocalEndpoint
         {| store := objects;
            provider := new_LocalEndpointProvider "" fetcher telemetry
                          tokenizer log |} in
     ∃ ref endpoint init,
       outcome created = Ok ref
       ∧ store (final created) !! ref = Some endpoint
       ∧ fetches (trace (makeChatRequest2 getTextPart generateUuid JSON_stringify
                           ChatRole_Assistant processSSE options token endpoint))
         = [("http://127.0.0.1:8777/v1/chat/completions", init)]).
Proof.
  assert (∀ options token this, ∃ body filtered,
     outcome (createRequestBody (body_options options) this) = Ok body
     ∧ outcome (interceptBody (Some body) this) = Ok (Some filtered)
     ∧ fetches (trace (makeChatRequest2 getTextPart generateUuid JSON_stringify
                         ChatRole_Assistant processSSE options token this))
       = [(_serverUrl this +:+ "/v1/chat/completions",
           {| fetch_method := "POST";
              fetch_headers := [("Content-Type", "application/json")];
              fetch_body := JSON_stringify filtered |})]) as Hpost.
  { intros options token this.
    destruct (makeChatRequest2_run options token this) as (b & b' & Hb & Hb' & ->).
    exists b, b'. rewrite Hb, Hb'. split_and!; [done|done|]. cbv zeta.
    destruct (_fetcherService this _ _) as [response|?]; [|done].
    destruct (ok response); [|done]. cbn [trace].
    rewrite fetches_cons_fetch, processing_no_fetch; [done|].
    apply processResponseFromChatEndpoint_frame. }
  split_and!.
  - exact Hpost.
  - intros. unfold new_LocalEndpointProvider, str_or. cbn. by case_decide.
  - intros fetcher telemetry tokenizer log objects options token created.
    set (endpoint := new_LocalLlmEndpoint createLocalModelMetadata
                       "http://127.0.0.1:8777" fetcher telemetry tokenizer log).
    destruct (Hpost options token endpoint) as (b & b' & _ & _ & Hf).
    exists (length objects), endpoint. eexists. split_and!.
    + done.
    + subst created. cbn. by rewrite lookup_app_r, Nat.sub_diag.
    + exact Hf.
Qed.

(** *** The non-streaming callback *)




End EndpointProperties.

(** *** Concrete runs *)

Lemma makeChatRequest2_failure_handling_witness :
  outcome (makeChatRequest2 sample_getTextPart sample_generateUuid
             sample_stringify sample_role sample_processSSE plain_request
             (CancellationTokenRef 0) (endpoint_served_by (inl reply_404)))
  = Throw (Error "Local LLM request failed: 404 Not Found").
Proof.
  exact (proj1 (proj1 (makeChatRequest2_failure_handling sample_getTextPart
                         sample_generateUuid sample_stringify sample_role
                         sample_processSSE plain_request (CancellationTokenRef 0)
                         (endpoint_served_by (inl reply_404)) reply_404 eq_refl)
                 eq_refl)).
Defined.

(** C2 as stated fails: the server answers 200 OK, so [ok] is true, and
    [makeChatRequest2] throws all the same, whatever the collaborators do:
    a [SyntaxError] from [JSON.parse] when the body is empty, a [TypeError]
    from [choice.message.role] when a choice has no message. *)
Lemma ok_reply_can_throw :
  ok reply_empty_body = true
  ∧ ok reply_choice_without_message = true
  ∧ (∀ getTextPart generateUuid JSON_stringify role processSSE,
       outcome (makeChatRequest2 getTextPart generateUuid JSON_stringify role
                  processSSE plain_request (CancellationTokenRef 0)
                  (endpoint_served_by (inl reply_empty_body)))
       = Throw (SyntaxError "Unexpected end of JSON input"))
  ∧ (∀ getTextPart generateUuid JSON_stringify role processSSE,
       outcome (makeChatRequest2 getTextPart generateUuid JSON_stringify role
                  processSSE plain_request (CancellationTokenRef 0)
                  (endpoint_served_by (inl reply_choice_without_message)))
       = Throw (TypeError "Cannot read properties of undefined (reading 'role')")).
Proof. by split_and!. Qed.



(** ** Fake authentication *)

Lemma fake_provider_call_frame c this :
  final (fake_provider_call c this) = this
  ∧ fetches (trace (fake_provider_call c this)) = [].
Proof. by destruct c. Qed.

Lemma fake_provider_calls_frame cs this :
  final (fake_provider_calls cs this) = this
  ∧ fetches (trace (fake_provider_calls cs this)) = [].
Proof.
  induction cs as [|c cs IH]; [done|].
  cbn [fake_provider_calls]. rewrite bind_cases.
  destruct (fake_provider_call_frame c this) as [Hf Ht].
  destruct (outcome (fake_provider_call c this));
    cbn [final trace]; rewrite ?Hf, ?fetches_app, ?Ht; [|done].
  destruct IH as [-> ->]. done.
Qed.

Lemma auth_service_call_frame c this :
  _fakeSession (final (auth_service_call c this)) = _fakeSession this
  ∧ fetches (trace (auth_service_call c this)) = [].
Proof.
  destruct c; try done;
    unfold auth_service_call, copilotToken, getCopilotToken, bind, gets;
    cbn [outcome final]; by destruct (_copilotToken this).
Qed.

Lemma auth_service_calls_frame cs :
  ∀ this,
    _fakeSession (final (auth_service_calls cs this)) = _fakeSession this
    ∧ fetches (trace (auth_service_calls cs this)) = [].
Proof.
  induction cs as [|c cs IH]; intros this; [done|].
  cbn [auth_service_calls]. rewrite bind_cases.
  destruct (auth_service_call_frame c this) as [Hf Ht].
  destruct (outcome (auth_service_call c this));
    cbn [final trace]; rewrite ?fetches_app, ?Ht; [|done].
  destruct (IH (final (auth_service_call c this))) as [-> ->]. done.
Qed.

(** C5. Whatever was called on it before, the fake GitHub provider
    answers [getSessions], for every scopes argument, with the one-element
    list holding its session, the one whose id is ['fake-github-session'],
    and [createSession] with that same session; [NullAuthenticationService]
    answers [getGitHubSession], for every kind and options, with its fake
    session, whose id is ['local-session'].  These calls make no call on any
    collaborator, and no sequence of calls on either object reaches the
    fetcher. *)
Theorem fake_sessions_are_constant :
  (∀ calls scopes scopes',
     let this := final (fake_provider_calls calls
                          new_FakeGitHubAuthenticationProvider) in
     let session := fake_session new_FakeGitHubAuthenticationProvider in
     getSessions scopes this = mkRun this [] (Ok [session])
     ∧ createSession scopes' this = mkRun this [] (Ok session)
     ∧ session_id session = "fake-github-session")
  ∧ (∀ calls kind options,
     let this := final (auth_service_calls calls new_NullAuthenticationService) in
     let session := _fakeSession new_NullAuthenticationService in
     getGitHubSession kind options this = mkRun this [] (Ok session)
     ∧ session_id session = "local-session")
  ∧ (∀ calls calls',
     fetches (trace (fake_provider_calls calls
                       new_FakeGitHubAuthenticationProvider)) = []
     ∧ fetches (trace (auth_service_calls calls'
                         new_NullAuthenticationService)) = []).
Proof.
  split_and!.
  - intros calls scopes scopes' this session. subst this.
    by destruct (fake_provider_calls_frame calls
                   new_FakeGitHubAuthenticationProvider) as [-> _].
  - intros calls kind options this session. subst this session.
    destruct (auth_service_calls_frame calls new_NullAuthenticationService)
      as [Hs _].
    unfold getGitHubSession, gets. by rewrite Hs.
  - intros calls calls'. split.
    + apply fake_provider_calls_frame.
    + apply auth_service_calls_frame.
Qed.

(** ** Quota *)

Lemma quota_calls_frame cs this : quota_calls cs this = mkRun this [] (Ok tt).
Proof.
  induction cs as [|c cs IH]; [done|].
  cbn [quota_calls]. rewrite bind_cases.
  assert (quota_call c this = mkRun this [] (Ok tt)) as -> by by destruct c.
  cbn [outcome final trace]. by rewrite IH.
Qed.

(** C6. In every state, that is after any sequence of calls,
    [quotaExhausted] is [false] and [overagesEnabled] is [true];
    [processQuotaHeaders], for every headers, and [clearQuota] return
    normally and leave the service, and so what its getters answer, as it
    was. *)
Theorem quota_answers_are_constant calls initial :
  let this := final (quota_calls calls initial) in
  outcome (quotaExhausted this) = Ok false
  ∧ outcome (overagesEnabled this) = Ok true
  ∧ (∀ headers,
       outcome (processQuotaHeaders headers this) = Ok tt
       ∧ final (processQuotaHeaders headers this) = this
       ∧ quota_observation (final (processQuotaHeaders headers this))
         = quota_observation this)
  ∧ outcome (clearQuota this) = Ok tt
  ∧ final (clearQuota this) = this
  ∧ quota_observation (final (clearQuota this)) = quota_observation this
  ∧ this = initial.
Proof. cbv zeta. rewrite quota_calls_frame. by split_and!. Qed.

(** ** CAPI *)

(** C7. [makeRequest] returns a promise rejected with
    [Error('CAPI not available in local mode')], for every request and
    request metadata and at every result type; it calls no collaborator, so
    performs no remote work, and leaves the client as it was. *)
Theorem capi_makeRequest_rejects (T : Type) request requestMetadata this :
  let run := @makeRequest T request requestMetadata this in
  (∃ e, outcome run = Throw e
        ∧ error_message e = "CAPI not available in local mode")
  ∧ (∀ result, outcome run ≠ Ok result)
  ∧ trace run = []
  ∧ final run = this.
Proof.
  cbv zeta. split_and!; [|done|done|done].
  exists (Error "CAPI not available in local mode"). by split.
Qed.

(** ** Endpoint provider *)

Lemma getOrCreateLocalEndpoint_cached w ref :
  lep_chatEndpoint (provider w) = Some ref →
  getOrCreateLocalEndpoint w = mkRun w [] (Ok ref).
Proof. intros H. unfold getOrCreateLocalEndpoint. cbn. by rewrite H. Qed.

Lemma getOrCreateLocalEndpoint_fresh w :
  lep_chatEndpoint (provider w) = None →
  let this := provider w in
  let run := getOrCreateLocalEndpoint w in
  outcome run = Ok (length (store w))
  ∧ trace run = []
  ∧ lep_chatEndpoint (provider (final run)) = Some (length (store w))
  ∧ store (final run)
    = store w ++ [new_LocalLlmEndpoint createLocalModelMetadata
                    (lep_serverUrl this) (lep_fetcherService this)
                    (lep_telemetryService this) (lep_tokenizerProvider this)
                    (lep_logService this)].
Proof. intros H. unfold getOrCreateLocalEndpoint. cbn. by rewrite H. Qed.

Lemma provider_call_cached c w ref :
  lep_chatEndpoint (provider w) = Some ref →
  final (provider_call c w) = w ∧ outcome (provider_call c w) = Ok [ref].
Proof.
  intros H. destruct c; cbn [provider_call].
  - unfold getChatEndpoint. rewrite bind_cases, emit_then.
    by rewrite (getOrCreateLocalEndpoint_cached w ref H).
  - unfold getAllChatEndpoints. rewrite bind_cases.
    by rewrite (getOrCreateLocalEndpoint_cached w ref H).
Qed.

Lemma provider_calls_cached cs w ref :
  lep_chatEndpoint (provider w) = Some ref →
  final (provider_calls cs w) = w
  ∧ outcome (provider_calls cs w) = Ok (replicate (length cs) [ref]).
Proof.
  intros H. induction cs as [|c cs [IHf IHo]]; [done|].
  cbn [provider_calls]. rewrite bind_cases.
  destruct (provider_call_cached c w ref H) as [Hf Ho].
  rewrite Ho, Hf. cbn [final outcome]. rewrite bind_cases, IHo, IHf. done.
Qed.

Lemma provider_call_fresh c w :
  lep_chatEndpoint (provider w) = None →
  let this := provider w in
  let run := provider_call c w in
  outcome run = Ok [length (store w)]
  ∧ lep_chatEndpoint (provider (final run)) = Some (length (store w))
  ∧ store (final run)
    = store w ++ [new_LocalLlmEndpoint createLocalModelMetadata
                    (lep_serverUrl this) (lep_fetcherService this)
                    (lep_telemetryService this) (lep_tokenizerProvider this)
                    (lep_logService this)].
Proof.
  intros H. destruct (getOrCreateLocalEndpoint_fresh w H) as (Ho & _ & Hc & Hs).
  destruct c; cbn [provider_call]; cbv zeta.
  - unfold getChatEndpoint. rewrite bind_cases, emit_then. cbn [outcome final].
    by rewrite Ho.
  - unfold getAllChatEndpoints. rewrite bind_cases. by rewrite Ho.
Qed.

(** C9. [getOrCreateLocalEndpoint] is idempotent: calling it again changes
    nothing and returns the same reference.  On a provider just
    constructed, the first call to [getChatEndpoint] or [getAllChatEndpoints]
    creates the endpoint object, and that call and every later call of
    either method hand out that one object: the only object added to the
    store.  On any provider, [getAllChatEndpoints] returns a list of one
    element, the endpoint [getOrCreateLocalEndpoint] returns. *)
Theorem provider_caches_endpoint :
  (∀ w, let once := getOrCreateLocalEndpoint w in
        getOrCreateLocalEndpoint (final once)
        = mkRun (final once) [] (outcome once))
  ∧ (∀ serverUrl fetcher telemetry tokenizer log objects first rest,
     let this := new_LocalEndpointProvider serverUrl fetcher telemetry
                   tokenizer log in
     let run := provider_calls (first :: rest)
                  {| store := objects; provider := this |} in
     let created := length objects in
     outcome run = Ok (replicate (S (length rest)) [created])
     ∧ store (final run)
       = objects ++ [new_LocalLlmEndpoint createLocalModelMetadata
                       (lep_serverUrl this) fetcher telemetry tokenizer log]
     ∧ lep_chatEndpoint (provider (final run)) = Some created)
  ∧ (∀ w, ∃ endpoint,
       outcome (getOrCreateLocalEndpoint w) = Ok endpoint
       ∧ outcome (getAllChatEndpoints w) = Ok [endpoint]
       ∧ final (getAllChatEndpoints w) = final (getOrCreateLocalEndpoint w)).
Proof.
  split_and!.
  - intros w once. subst once.
    destruct (lep_chatEndpoint (provider w)) as [ref|] eqn:Hc.
    + rewrite (getOrCreateLocalEndpoint_cached w ref Hc). cbn [final outcome].
      apply (getOrCreateLocalEndpoint_cached w ref Hc).
    + destruct (getOrCreateLocalEndpoint_fresh w Hc) as (Ho & _ & Hc' & _).
      by rewrite Ho, (getOrCreateLocalEndpoint_cached _ _ Hc').
  - intros serverUrl fetcher telemetry tokenizer log objects first rest
      this run created.
    set (w := {| store := objects; provider := this |}).
    destruct (provider_call_fresh first w eq_refl) as (Ho & Hc & Hs).
    destruct (provider_calls_cached rest _ _ Hc) as [Hf Hr].
    subst run. fold w. cbn [provider_calls].
    rewrite bind_cases, Ho. cbn [final outcome].
    rewrite bind_cases, Hr, Hf. unfold ret. cbn [final outcome].
    by rewrite Hs, Hc.
  - intros w. unfold getAllChatEndpoints. rewrite bind_cases.
    destruct (lep_chatEndpoint (provider w)) as [ref|] eqn:Hc.
    + exists ref. by rewrite !(getOrCreateLocalEndpoint_cached w ref Hc).
    + destruct (getOrCreateLocalEndpoint_fresh w Hc) as (Ho & _ & _ & _).
      exists (length (store w)). by rewrite Ho.
Qed.

(** ** Auto mode *)

(** C10. [resolveAutoModeEndpoint] throws exactly when [knownEndpoints] is
    empty, and then the error is
    [Error('No endpoints provided for auto mode.')]; for a non-empty list it
    returns the [AutoChatEndpoint] built from the first element of the list,
    the session token ['local-session-token'], discount 0 and discount range
    [{ low: 0, high: 0 }]. *)
Theorem resolveAutoModeEndpoint_first_or_throws
    (E : Type) (endpoint_model : E → string) chatRequest
    (knownEndpoints : list E) this :
  let run := resolveAutoModeEndpoint E endpoint_model chatRequest
               knownEndpoints this in
  (outcome run = Throw (Error "No endpoints provided for auto mode.")
   ↔ knownEndpoints = [])
  ∧ (∀ e, outcome run = Throw e → knownEndpoints = [])
  ∧ (∀ first rest,
       knownEndpoints = first :: rest →
       outcome run = Ok {| auto_wrappedEndpoint := first;
                           auto_sessionToken := "local-session-token";
                           auto_discountPercent := 0;
                           auto_discountRange := {| low := 0; high := 0 |} |}).
Proof.
  cbv zeta. destruct knownEndpoints as [|selected others]; cbn.
  - by split_and!.
  - split_and!; [by split|done|]. by intros first rest [= <- <-].
Qed.

(** * Further properties *)

(** ** [LocalLlmEndpoint]: request bodies *)

Lemma clean_message_filter (msg : JSProps) :
  clean_message msg
  = filter (fun p => p.1 ∉ ["copilot_references"; "copilot_confirmations";
                            "copilot_cache_control"]) msg.
Proof.
  unfold clean_message, js_delete. rewrite !list_filter_filter.
  apply list_filter_iff. intros [k v]. cbn [fst].
  rewrite !not_elem_of_cons, elem_of_nil. tauto.
Qed.

Lemma clean_message_idempotent (msg : JSProps) :
  clean_message (clean_message msg) = clean_message msg.
Proof.
  rewrite !clean_message_filter, list_filter_filter.
  apply list_filter_iff. tauto.
Qed.

Lemma map_clean_idempotent (msgs : list JSProps) :
  map clean_message (map clean_message msgs) = map clean_message msgs.
Proof.
  rewrite map_map. apply map_ext. intros msg. apply clean_message_idempotent.
Qed.

(** X2. [clean_message] removes the three Copilot properties and nothing
    else: reading one of them off the result gives [undefined], any other key
    reads as before; the properties kept stay in their order; cleaning a
    cleaned message changes nothing. *)
Theorem clean_message_drops_copilot_properties (msg : JSProps) :
  (∀ key,
     js_get key (clean_message msg)
     = if bool_decide (key ∈ ["copilot_references"; "copilot_confirmations";
                              "copilot_cache_control"])
       then JSUndefined else js_get key msg)
  ∧ (∀ key value,
       (key, value) ∈ clean_message msg
       ↔ (key, value) ∈ msg
         ∧ key ∉ ["copilot_references"; "copilot_confirmations";
                  "copilot_cache_control"])
  ∧ clean_message msg `sublist_of` msg
  ∧ clean_message (clean_message msg) = clean_message msg.
Proof.
  split_and!.
  - intros key. unfold clean_message. rewrite !js_get_delete.
    destruct (decide (key = "copilot_cache_control")) as [->|H1];
      [by rewrite bool_decide_eq_true_2 by set_solver|].
    destruct (decide (key = "copilot_confirmations")) as [->|H2];
      [by rewrite bool_decide_eq_true_2 by set_solver|].
    destruct (decide (key = "copilot_references")) as [->|H3];
      [by rewrite bool_decide_eq_true_2 by set_solver|].
    rewrite bool_decide_eq_false_2; [done|].
    rewrite !elem_of_cons, elem_of_nil. tauto.
  - intros key value. rewrite clean_message_filter, list_elem_of_filter.
    cbn [fst]. tauto.
  - rewrite clean_message_filter. apply sublist_filter.
  - apply clean_message_idempotent.
Qed.

(** X1. [interceptBody] never throws, calls nothing and leaves the endpoint
    as it is; an absent body stays absent.  On a body it clears [snippy],
    [copilot_thread_id] and [copilot_skills], cleans every message, drops
    [tools] exactly when the endpoint does not support tool calls, and keeps
    the other properties.  Intercepting an intercepted body changes
    nothing. *)
Theorem interceptBody_total_and_idempotent (body : option IEndpointBody) this :
  ∃ filtered,
    interceptBody body this = mkRun this [] (Ok filtered)
    ∧ interceptBody filtered this = mkRun this [] (Ok filtered)
    ∧ (body = None → filtered = None)
    ∧ ∀ b, body = Some b →
        ∃ f, filtered = Some f
          ∧ b_snippy f = None ∧ b_copilot_thread_id f = None
          ∧ b_copilot_skills f = None
          ∧ b_messages f = (map clean_message <$> b_messages b)
          ∧ b_tools f = (if supportsToolCalls this then b_tools b else None)
          ∧ b_model f = b_model b ∧ b_stream f = b_stream b
          ∧ b_max_tokens f = b_max_tokens b
          ∧ b_temperature f = b_temperature b ∧ b_top_p f = b_top_p b.
Proof.
  destruct body as [b|].
  - eexists. split; [reflexivity|]. split_and!.
    + unfold interceptBody, bind, gets, ret. cbn [outcome final trace app].
      do 2 f_equal.
      destruct (b_messages b) as [msgs|] eqn:Hm, (supportsToolCalls this); cbn;
        rewrite ?Hm; cbn; by rewrite ?Hm, ?map_clean_idempotent.
    + done.
    + intros ? [= <-]. eexists. split; [reflexivity|].
      by destruct (b_messages b) eqn:Hm, (supportsToolCalls this); cbn;
        rewrite ?Hm.
  - exists None. split_and!; done.
Qed.

(** ** [LocalLlmEndpoint]: requests and responses *)

Section EndpointExtras.

Variable getTextPart : JSValue → string.
Variable generateUuid : nat → string.
Variable JSON_stringify : IEndpointBody → string.
Variable ChatRole_Assistant : JSValue.
Variable processSSE :
  ILogService → ITelemetryService → nat → Response →
  option CancellationToken → FinishedCallback → SSEResult.






Lemma extract_loop_nil : extract_loop getTextPart [] = ("", "", JSUndefined).
Proof. reflexivity. Qed.

(** The values kept after the [for await] loop are those of the last
    completion. *)
Lemma extract_loop_last completions c :
  last completions = Some c →
  extract_loop getTextPart completions
  = (getTextPart (am_content (message c)),
     str_or (headerRequestId <$> requestId c) "", usage c).
Proof.
  intros (front & ->)%last_Some. unfold extract_loop. rewrite foldl_snoc.
  by destruct (foldl _ _ front) as [[? ?] ?].
Qed.

(** The run of [makeChatRequest2], case by case on what the fetcher
    answered. *)
Lemma makeChatRequest2_reply options token this reply :
  let run := makeChatRequest2 getTextPart generateUuid JSON_stringify
               ChatRole_Assistant processSSE options token this in
  fetch_replies this (trace run) = [reply] →
  ∃ url init,
    run = match reply with
          | inr rejection => mkRun this [EvFetch url init] (Throw rejection)
          | inl response =>
              if ok response then
                let processing :=
                  processResponseFromChatEndpoint getTextPart generateUuid
                    ChatRole_Assistant processSSE (_telemetryService this)
                    (_logService this) response 1%nat
                    (nullish (mo_finishedCb options) noop_callback)
                    TelemetryDataIssued (Some token) this in
                mkRun this (EvFetch url init :: trace processing)
                  match outcome processing with
                  | Ok completions =>
                      Ok (chat_response getTextPart this completions)
                  | Throw e => Throw e
                  end
              else mkRun this [EvFetch url init] (Throw (failed_status response))
          end.
Proof.
  cbv zeta.
  destruct (makeChatRequest2_run getTextPart generateUuid JSON_stringify
              ChatRole_Assistant processSSE options token this)
    as (b & b' & _ & _ & Hrun).
  cbv zeta in Hrun. rewrite Hrun. clear Hrun. unfold fetch_replies.
  intros H. eexists _, _.
  destruct (_fetcherService this _ _) as [response|rejection] eqn:Hfetch.
  - destruct (ok response) eqn:Hok; cbn [trace] in H;
      rewrite fetches_cons_fetch in H.
    + rewrite processing_no_fetch in H
        by apply processResponseFromChatEndpoint_frame.
      cbn in H. rewrite Hfetch in H. injection H as <-. by rewrite Hok.
    + cbn in H. rewrite Hfetch in H. injection H as <-. by rewrite Hok.
  - cbn in H. rewrite Hfetch in H. by injection H as <-.
Qed.

Lemma processResponseFromChatEndpoint_json
    telemetry log response n finishCallback td token this :
  ¬ content_type_contains response "text/event-stream" →
  processResponseFromChatEndpoint getTextPart generateUuid ChatRole_Assistant
    processSSE telemetry log response n finishCallback td token this
  = processNonStreamingResponse getTextPart generateUuid response
      finishCallback td this.
Proof.
  intros Hct. unfold processResponseFromChatEndpoint.
  destruct (includes _ _) eqn:Hinc; [|done].
  by apply content_type_test in Hinc.
Qed.

Lemma processResponseFromChatEndpoint_sse
    telemetry log response n finishCallback td token this :
  content_type_contains response "text/event-stream" →
  let processor := processSSE log telemetry n response token finishCallback in
  processResponseFromChatEndpoint getTextPart generateUuid ChatRole_Assistant
    processSSE telemetry log response n finishCallback td token this
  = mkRun this [EvProcessSSE n]
      match sse_failure processor with
      | Some e => Throw e
      | None => Ok (map (convert_finished ChatRole_Assistant td)
                      (sse_yielded processor))
      end.
Proof.
  intros Hct%content_type_test. cbv zeta.
  unfold processResponseFromChatEndpoint. rewrite Hct, emit_then, sse_loop_map.
  by destruct (sse_failure _).
Qed.

(** X3. The one request [makeChatRequest2] posts carries, serialized, a
    body with the endpoint's model, [stream: true], [max_tokens] from the
    request options or else the endpoint's maximum, [temperature] and [top_p]
    exactly when the request options give them, [tools] only when the
    endpoint supports tool calls, the messages of the request with their
    Copilot properties removed, and none of [snippy], [copilot_thread_id],
    [copilot_skills]. *)
Theorem makeChatRequest2_posted_body options token this :
  fetches (trace (makeChatRequest2 getTextPart generateUuid JSON_stringify
                    ChatRole_Assistant processSSE options token this))
  = [(_serverUrl this +:+ "/v1/chat/completions",
      {| fetch_method := "POST";
         fetch_headers := [("Content-Type", "application/json")];
         fetch_body := JSON_stringify
           {| b_model := Some (model this);
              b_stream := Some true;
              b_max_tokens :=
                Some (match mo_requestOptions options ≫= rp_max_tokens with
                      | Some n => n
                      | None => _maxOutputTokens this
                      end);
              b_temperature := mo_requestOptions options ≫= rp_temperature;
              b_top_p := mo_requestOptions options ≫= rp_top_p;
              b_tools := if supportsToolCalls this
                         then mo_requestOptions options ≫= rp_tools
                         else None;
              b_messages := Some (map clean_message (mo_messages options));
              b_snippy := None;
              b_copilot_thread_id := None;
              b_copilot_skills := None |} |})].
Proof.
  destruct (makeChatRequest2_run getTextPart generateUuid JSON_stringify
              ChatRole_Assistant processSSE options token this)
    as (b & b' & Hb & Hb' & Hrun).
  cbv zeta in Hrun. rewrite Hrun. clear Hrun.
  assert (b' = {| b_model := Some (model this);
              b_stream := Some true;
              b_max_tokens :=
                Some (match mo_requestOptions options ≫= rp_max_tokens with
                      | Some n => n
                      | None => _maxOutputTokens this
                      end);
              b_temperature := mo_requestOptions options ≫= rp_temperature;
              b_top_p := mo_requestOptions options ≫= rp_top_p;
              b_tools := if supportsToolCalls this
                         then mo_requestOptions options ≫= rp_tools
                         else None;
              b_messages := Some (map clean_message (mo_messages options));
              b_snippy := None;
              b_copilot_thread_id := None;
              b_copilot_skills := None |}) as ->.
  { unfold createRequestBody, bind, gets, ret in Hb.
    cbn [outcome final trace app] in Hb. injection Hb as <-.
    unfold interceptBody, bind, gets, ret in Hb'.
    cbn [outcome final trace app] in Hb'. injection Hb' as <-.
    unfold body_options.
    destruct (mo_requestOptions options) as [[[mt|] [te|] [tp|] [tl|]]|];
      by destruct (supportsToolCalls this). }
  destruct (_fetcherService this _ _) as [response|?]; [|done].
  destruct (ok response); [|done]. cbn [trace].
  rewrite fetches_cons_fetch, processing_no_fetch; [done|].
  apply processResponseFromChatEndpoint_frame.
Qed.

(** X5. When the fetcher rejects, [makeChatRequest2] throws that very
    rejection; no response is processed, the callback is not invoked and
    the endpoint is left as it was. *)
Theorem makeChatRequest2_propagates_fetch_rejection options token this rejection :
  let run := makeChatRequest2 getTextPart generateUuid JSON_stringify
               ChatRole_Assistant processSSE options token this in
  fetch_replies this (trace run) = [inr rejection] →
  outcome run = Throw rejection
  ∧ final run = this
  ∧ Forall (fun e => ¬ processing_event e) (trace run)
  ∧ callback_calls (trace run) = [].
Proof.
  intros run H. destruct (makeChatRequest2_reply _ _ _ _ H) as (url & init & Hrun).
  subst run. rewrite Hrun. split_and!; try done.
  constructor; [intros [] | constructor].
Qed.

(** X6. A 200 reply that is JSON but lists no choice (no [choices], an
    empty array, or a JSON value that is not an object) is a success with
    empty text: the callback is never invoked and the response has an empty
    value, empty request ids, [undefined] usage and the endpoint's model. *)
Theorem makeChatRequest2_no_choices options token this response :
  let run := makeChatRequest2 getTextPart generateUuid JSON_stringify
               ChatRole_Assistant processSSE options token this in
  fetch_replies this (trace run) = [inl response] →
  ok response = true →
  ¬ content_type_contains response "text/event-stream" →
  (∀ why, body response ≠ NotJson why) →
  response_choices response = [] →
  outcome run = Ok {| cr_type := Success; cr_value := ""; cr_requestId := "";
                      cr_serverRequestId := ""; cr_usage := JSUndefined;
                      cr_resolvedModel := model this |}
  ∧ callback_calls (trace run) = [].
Proof.
  intros run H Hok Hct Hjson Hchoices.
  destruct (makeChatRequest2_reply _ _ _ _ H) as (url & init & Hrun).
  subst run. rewrite Hrun, Hok. cbv zeta.
  rewrite processResponseFromChatEndpoint_json by done.
  unfold processNonStreamingResponse. rewrite emit_then.
  unfold response_choices in Hchoices.
  destruct (body response) as [why|v|jsonResponse];
    [by destruct (Hjson why)|done|].
  by rewrite Hchoices.
Qed.





(** X11. Over an event stream, [makeChatRequest2] runs the SSE processor
    with one expected choice, the callback of the request (or one that does
    nothing) and the cancellation token, and never invokes the callback
    itself.  It throws what the processor fails with; otherwise the response
    is a success that speaks of the last finished completion only: the text
    of its joined chunks, its header request id (or ['']), its usage; with no
    finished completion the text and the ids are empty. *)
Theorem makeChatRequest2_event_stream options token this response :
  let run := makeChatRequest2 getTextPart generateUuid JSON_stringify
               ChatRole_Assistant processSSE options token this in
  fetch_replies this (trace run) = [inl response] →
  ok response = true →
  content_type_contains response "text/event-stream" →
  let processor :=
    processSSE (_logService this) (_telemetryService this) 1%nat response
      (Some token) (nullish (mo_finishedCb options) noop_callback) in
  callback_calls (trace run) = []
  ∧ (∃ url init, trace run = [EvFetch url init; EvProcessSSE 1])
  ∧ outcome run
    = match sse_failure processor with
      | Some e => Throw e
      | None =>
          Ok match last (sse_yielded processor) with
             | Some fc =>
                 {| cr_type := Success;
                    cr_value :=
                      getTextPart
                        (JSString (String.concat "" (fc_solution_text fc)));
                    cr_requestId :=
                      str_or (headerRequestId <$> fc_requestId fc) "";
                    cr_serverRequestId :=
                      str_or (headerRequestId <$> fc_requestId fc) "";
                    cr_usage := fc_usage fc;
                    cr_resolvedModel := model this |}
             | None =>
                 {| cr_type := Success; cr_value := ""; cr_requestId := "";
                    cr_serverRequestId := ""; cr_usage := JSUndefined;
                    cr_resolvedModel := model this |}
             end
      end.
Proof.
  intros run H Hok Hct processor.
  destruct (makeChatRequest2_reply _ _ _ _ H) as (url & init & Hrun).
  subst run. rewrite Hrun, Hok. cbv zeta. clear Hrun H.
  rewrite processResponseFromChatEndpoint_sse by done.
  cbv zeta. fold processor. cbn [trace outcome].
  split_and!; [done|by eexists _, _|].
  destruct (sse_failure processor); [done|]. f_equal.
  destruct (sse_yielded processor) as [|fc0 fcs] using rev_ind; [done|].
  rewrite last_snoc, map_app. unfold chat_response.
  by erewrite extract_loop_last by apply last_snoc.
Qed.

End EndpointExtras.

(** ** [LocalLlmEndpoint]: clones *)

(** X4. [cloneWithTokenOverride(n)] leaves the endpoint as it is and returns
    an endpoint whose prompt-token limit is [n], in its metadata and as
    [modelMaxPromptTokens], and that agrees with the original on the output
    limit, the model data, the capabilities and the services.  Overriding a
    clone again gives what overriding the original gives: the last override
    wins. *)
Theorem cloneWithTokenOverride_replaces_prompt_limit
    metadata serverUrl fetcher telemetry tokenizers log (n n' : Z) :
  let this := new_LocalLlmEndpoint metadata serverUrl fetcher telemetry
                tokenizers log in
  ∃ clone,
    cloneWithTokenOverride n this = mkRun this [] (Ok clone)
    ∧ outcome (modelMaxPromptTokens clone) = Ok n
    ∧ (cap_limits (capabilities (modelMetadata clone)) ≫= max_prompt_tokens)
      = Some n
    ∧ outcome (maxOutputTokens clone) = outcome (maxOutputTokens this)
    ∧ (model clone, name clone, version clone, family clone, tokenizer clone)
      = (model this, name this, version this, family this, tokenizer this)
    ∧ (showInModelPicker clone, isDefault clone, isFallback clone,
       supportsToolCalls clone, supportsVision clone, supportsPrediction clone)
      = (showInModelPicker this, isDefault this, isFallback this,
         supportsToolCalls this, supportsVision this, supportsPrediction this)
    ∧ (_serverUrl clone, _fetcherService clone, _telemetryService clone,
       _tokenizerProvider clone, _logService clone)
      = (serverUrl, fetcher, telemetry, tokenizers, log)
    ∧ outcome (cloneWithTokenOverride n' clone)
      = outcome (cloneWithTokenOverride n' this).
Proof.
  cbv zeta. eexists. split; [reflexivity|]. split_and!; reflexivity.
Qed.

(** ** [LocalEndpointProvider]: all four methods *)

Lemma provider_op_cached op w ref :
  lep_chatEndpoint (provider w) = Some ref →
  final (attempt (provider_op op) w) = w
  ∧ outcome (attempt (provider_op op) w) = Ok (provider_answer ref op).
Proof.
  intros H. unfold attempt. cbn [final outcome].
  destruct op; cbn [provider_op provider_answer]; try done.
  - unfold getChatEndpoint. rewrite bind_cases, emit_then.
    by rewrite (getOrCreateLocalEndpoint_cached w ref H).
  - unfold getAllChatEndpoints. rewrite 2!bind_cases.
    by rewrite (getOrCreateLocalEndpoint_cached w ref H).
Qed.

Lemma provider_ops_cached ops w ref :
  lep_chatEndpoint (provider w) = Some ref →
  final (provider_ops ops w) = w
  ∧ outcome (provider_ops ops w) = Ok (map (provider_answer ref) ops).
Proof.
  intros H. induction ops as [|op ops [IHf IHo]]; [done|].
  cbn [provider_ops map]. rewrite bind_cases.
  destruct (provider_op_cached op w ref H) as [Hf Ho].
  rewrite Ho, Hf. cbn [final outcome]. rewrite bind_cases, IHo, IHf. done.
Qed.

Lemma provider_op_fresh op w :
  lep_chatEndpoint (provider w) = None →
  is_chat_op op = true →
  let this := provider w in
  let run := attempt (provider_op op) w in
  outcome run = Ok (provider_answer (length (store w)) op)
  ∧ lep_chatEndpoint (provider (final run)) = Some (length (store w))
  ∧ store (final run)
    = store w ++ [new_LocalLlmEndpoint createLocalModelMetadata
                    (lep_serverUrl this) (lep_fetcherService this)
                    (lep_telemetryService this) (lep_tokenizerProvider this)
                    (lep_logService this)].
Proof.
  intros H Hop. destruct (getOrCreateLocalEndpoint_fresh w H) as (Ho & _ & Hc & Hs).
  cbv zeta in *. unfold attempt. cbn [final outcome].
  destruct op; try done; cbn [provider_op provider_answer].
  - unfold getChatEndpoint. rewrite bind_cases, emit_then. cbn [outcome final].
    by rewrite Ho.
  - unfold getAllChatEndpoints. rewrite 2!bind_cases. by rewrite Ho.
Qed.

Lemma provider_op_other op w :
  is_chat_op op = false →
  attempt (provider_op op) w
  = mkRun w [] (Ok (provider_answer (length (store w)) op)).
Proof. by destruct op. Qed.

Lemma provider_ops_fresh ops w :
  lep_chatEndpoint (provider w) = None →
  let this := provider w in
  let run := provider_ops ops w in
  outcome run = Ok (map (provider_answer (length (store w))) ops)
  ∧ store (final run)
    = (if existsb is_chat_op ops
       then store w ++ [new_LocalLlmEndpoint createLocalModelMetadata
                          (lep_serverUrl this) (lep_fetcherService this)
                          (lep_telemetryService this)
                          (lep_tokenizerProvider this) (lep_logService this)]
       else store w)
  ∧ lep_chatEndpoint (provider (final run))
    = (if existsb is_chat_op ops then Some (length (store w)) else None).
Proof.
  intros H. cbv zeta. induction ops as [|op ops IH]; [done|].
  cbn [provider_ops map existsb]. rewrite bind_cases.
  destruct (is_chat_op op) eqn:Hop; cbn [orb].
  - destruct (provider_op_fresh op w H Hop) as (Ho & Hc & Hs).
    cbv zeta in Ho, Hc, Hs. rewrite Ho. cbn [final outcome].
    destruct (provider_ops_cached ops _ _ Hc) as [Hf Hr].
    rewrite bind_cases, Hr, Hf. unfold ret. cbn [final outcome].
    by rewrite Hs, Hc.
  - rewrite (provider_op_other op w Hop). cbn [final outcome trace].
    destruct IH as (Ho & Hs & Hc).
    rewrite bind_cases, Ho. unfold ret. cbn [final outcome].
    by rewrite Hs, Hc.
Qed.

(** X12. Whatever a client calls on a provider just constructed, in
    whatever order, catching what is thrown: at most one endpoint object is
    ever created, namely by the first call of [getChatEndpoint] or
    [getAllChatEndpoints], and with the provider's server URL and services;
    every such call answers with that one object; [getEmbeddingsEndpoint]
    always throws and [getAllCompletionModels] always answers with no model,
    and neither creates an endpoint. *)
Theorem provider_creates_at_most_one_endpoint
    serverUrl fetcher telemetry tokenizers log objects ops :
  let this := new_LocalEndpointProvider serverUrl fetcher telemetry
                tokenizers log in
  let run := provider_ops ops {| store := objects; provider := this |} in
  outcome run = Ok (map (provider_answer (length objects)) ops)
  ∧ store (final run)
    = (if existsb is_chat_op ops
       then objects ++ [new_LocalLlmEndpoint createLocalModelMetadata
                          (lep_serverUrl this) fetcher telemetry tokenizers log]
       else objects)
  ∧ lep_chatEndpoint (provider (final run))
    = (if existsb is_chat_op ops then Some (length objects) else None)
  ∧ (∀ family w,
       attempt (getEmbeddingsEndpoint family) w
       = mkRun w []
           (Ok (Throw (Error "Embeddings not supported in local mode. Use local indexing instead."))))
  ∧ (∀ forceRefresh w,
       getAllCompletionModels forceRefresh w = mkRun w [] (Ok [])).
Proof.
  intros this run.
  destruct (provider_ops_fresh ops {| store := objects; provider := this |}
              eq_refl) as (Ho & Hs & Hc).
  by split_and!.
Qed.

(** ** Auto mode over the local provider *)

(** X16. [resolveAutoModeEndpoint] looks at the first known endpoint only:
    what it returns does not depend on the chat request nor on the other
    endpoints; it logs one trace line, naming the model of that endpoint, and
    leaves the service as it was.  Over the list that
    [LocalEndpointProvider.getAllChatEndpoints] returns it never throws and
    selects the provider's one endpoint. *)
Theorem auto_mode_selects_first_endpoint
    (E : Type) (endpoint_model : E → string) (service : NullAutomodeService) :
  (∀ chatRequest chatRequest' first rest rest',
     let run := resolveAutoModeEndpoint E endpoint_model chatRequest
                  (first :: rest) service in
     run = resolveAutoModeEndpoint E endpoint_model chatRequest'
             (first :: rest') service
     ∧ final run = service
     ∧ trace run = [EvLog "trace"
                      ("NullAutomodeService: Using local endpoint "
                       +:+ endpoint_model first
                       +:+ " as auto mode selection")])
  ∧ (∀ (ref_model : EndpointRef → string) chatRequest w,
     ∃ endpoint,
       outcome (getAllChatEndpoints w) = Ok [endpoint]
       ∧ outcome (getOrCreateLocalEndpoint (final (getAllChatEndpoints w)))
         = Ok endpoint
       ∧ ∀ known, outcome (getAllChatEndpoints w) = Ok known →
           outcome (resolveAutoModeEndpoint EndpointRef ref_model chatRequest
                      known service)
           = Ok {| auto_wrappedEndpoint := endpoint;
                   auto_sessionToken := "local-session-token";
                   auto_discountPercent := 0;
                   auto_discountRange := {| low := 0; high := 0 |} |}).
Proof.
  split; [done|]. intros ref_model chatRequest w.
  unfold getAllChatEndpoints. rewrite bind_cases.
  destruct (lep_chatEndpoint (provider w)) as [ref|] eqn:Hc.
  - exists ref. rewrite (getOrCreateLocalEndpoint_cached w ref Hc).
    cbn [outcome final ret]. rewrite (getOrCreateLocalEndpoint_cached w ref Hc).
    split_and!; [done|done|]. by intros known [= <-].
  - destruct (getOrCreateLocalEndpoint_fresh w Hc) as (Ho & _ & Hc' & _).
    exists (length (store w)). rewrite Ho. cbn [outcome final ret].
    rewrite (getOrCreateLocalEndpoint_cached _ _ Hc').
    split_and!; [done|done|]. by intros known [= <-].
Qed.

(** ** Copilot tokens *)

Lemma year_lifetime (now : Z) :
  (now / 1000 + 86400 * 365) * 1000 - now > 31535999000.
Proof. pose proof (Z.mod_pos_bound now 1000). pose proof (Z.div_mod now 1000). lia. Qed.

(** X13. At a [valid_clock], when the time read and the time one year
    later are both times a [Date] can hold, so that making a token does not
    throw, [NullAuthenticationService] creates its Copilot token on demand and
    keeps it: on a service without token [getCopilotToken] makes the fake
    token of the current time; asking again, through the method or the
    [copilotToken] getter, at such a time and whatever [force] is, gives
    that same token and changes nothing; after [resetCopilotToken] the next
    call makes a new token.  A token expires [refresh_in] seconds, one year,
    after the second it was made in.  None of this touches the fake
    session. *)
Theorem auth_copilot_token_is_cached this now now' force force' httpError :
  valid_clock now →
  valid_clock now' →
  let first := getCopilotToken now force this in
  let again := getCopilotToken now' force' (final first) in
  (_copilotToken this = None → outcome first = Ok (createFakeToken now))
  ∧ outcome again = outcome first
  ∧ final again = final first
  ∧ copilotToken now' (final first) = again
  ∧ outcome (getCopilotToken now' force'
               (final (resetCopilotToken httpError (final first))))
    = Ok (createFakeToken now')
  ∧ expires_at (createFakeToken now) = now / 1000 + refresh_in (createFakeToken now)
  ∧ expires_at (createFakeToken now) * 1000 - now > 31535999000
  ∧ _fakeSession (final again) = _fakeSession this.
Proof.
  intros _ _.
  cbv zeta. unfold getCopilotToken, copilotToken, resetCopilotToken,
    assign_copilotToken, bind, gets, modify, ret.
  destruct (_copilotToken this) eqn:Hc; cbn; rewrite ?Hc;
    split_and!; try done; apply year_lifetime.
Qed.

(** X14. At clock reads that a [Date] can hold, the second of them also
    one year later, so that [toISOString()] does not throw,
    [NullCopilotTokenManager] creates its token on demand and keeps it:
    the first [getCopilotToken] makes the fake token of the current time;
    asking again, at such a time and whatever [force] is, gives that same
    token and changes nothing; after [resetCopilotToken] the next call makes
    a new one.  A token expires [refresh_in] seconds, one year, after the
    second it was made in, and its quota reset date is the ISO date one year
    after the time it was made. *)
Theorem manager_copilot_token_is_cached (toISOString : Z → string)
    this now1 now2 now1' now2' force force' httpError :
  date_range now1 →
  valid_clock now2 →
  date_range now1' →
  valid_clock now2' →
  let first := manager_getCopilotToken toISOString now1 now2 force this in
  let again := manager_getCopilotToken toISOString now1' now2' force'
                 (final first) in
  let fresh := token_info (manager_createFakeToken toISOString now1 now2) in
  (_fakeToken this = None
   → outcome first = Ok (manager_createFakeToken toISOString now1 now2))
  ∧ outcome again = outcome first
  ∧ final again = final first
  ∧ outcome (manager_getCopilotToken toISOString now1' now2' force'
               (final (manager_resetCopilotToken httpError (final first))))
    = Ok (manager_createFakeToken toISOString now1' now2')
  ∧ eti_expires_at fresh = now1 / 1000 + eti_refresh_in fresh
  ∧ eti_expires_at fresh * 1000 - now1 > 31535999000
  ∧ quota_reset_date fresh = toISOString (now2 + 31536000000).
Proof.
  intros _ _ _ _.
  cbv zeta. unfold manager_getCopilotToken, manager_resetCopilotToken,
    bind, gets, modify, ret.
  destruct this as [[t|]]; cbn; split_and!; try done; apply year_lifetime.
Qed.

(** ** Context keys *)

Lemma run_commands_lookup_out cmds (ctx : gmap string bool) key :
  key ∉ cmds.*1 → run_commands cmds ctx !! key = ctx !! key.
Proof.
  unfold run_commands. revert ctx.
  induction cmds as [|[k v] cmds IH]; intros ctx Hout; [done|].
  rewrite fmap_cons, not_elem_of_cons in Hout. destruct Hout as [Hne Hout].
  cbn [foldl]. rewrite IH by done. unfold setContext. cbn [fst snd].
  by rewrite lookup_insert_ne.
Qed.

Lemma run_commands_lookup_in cmds (ctx : gmap string bool) key value :
  NoDup cmds.*1 → (key, value) ∈ cmds →
  run_commands cmds ctx !! key = Some value.
Proof.
  unfold run_commands. revert ctx.
  induction cmds as [|[k v] cmds IH]; intros ctx Hnd Hin.
  - by apply elem_of_nil in Hin.
  - rewrite fmap_cons in Hnd. apply NoDup_cons in Hnd as [Hk Hnd].
    cbn [foldl]. apply elem_of_cons in Hin as [[= -> ->]|Hin].
    + fold (run_commands cmds (setContext ctx (k, v))).
      rewrite run_commands_lookup_out by done.
      unfold setContext. cbn [fst snd]. apply lookup_insert_eq.
    + by apply IH.
Qed.

Lemma setKeys_commands_NoDup : NoDup setKeys_commands.*1.
Proof. apply (bool_decide_unpack (NoDup setKeys_commands.*1)). by vm_compute. Qed.

(** Commands on pairwise distinct keys give the same context keys in
    whatever order the host runs them. *)
Lemma run_commands_same cmds cmds' (ctx ctx' : gmap string bool) :
  NoDup cmds.*1 → cmds ≡ₚ cmds' →
  (∀ key, key ∉ cmds.*1 → ctx !! key = ctx' !! key) →
  run_commands cmds ctx = run_commands cmds' ctx'.
Proof.
  intros Hnd Hperm Hout. apply map_eq. intros key.
  assert (NoDup cmds'.*1) as Hnd' by by rewrite <- Hperm.
  destruct (decide (key ∈ cmds.*1)) as [Hin|Hnin].
  - apply list_elem_of_fmap in Hin as ([k v] & -> & Hin). cbn [fst].
    rewrite (run_commands_lookup_in cmds ctx k v) by done.
    rewrite (run_commands_lookup_in cmds' ctx' k v); [done|done|].
    by rewrite <- Hperm.
  - rewrite run_commands_lookup_out by done.
    rewrite run_commands_lookup_out by by rewrite <- Hperm.
    by apply Hout.
Qed.

(** X15. [setKeys] gives each of its sixteen context keys the value the
    source names, whatever the host had written there, and touches no other
    key.  Running it again changes nothing.  The keys are pairwise
    distinct, so the outcome is the same in whatever order the host carries
    out the sixteen commands, none of which is awaited. *)
Theorem setKeys_restores_local_mode (ctx : gmap string bool) :
  (∀ key value, (key, value) ∈ setKeys_commands →
                setKeys ctx !! key = Some value)
  ∧ (∀ key, key ∉ setKeys_commands.*1 → setKeys ctx !! key = ctx !! key)
  ∧ (∀ ctx' : gmap string bool,
       (∀ key, key ∉ setKeys_commands.*1 → ctx !! key = ctx' !! key) →
       setKeys ctx = setKeys ctx')
  ∧ setKeys (setKeys ctx) = setKeys ctx
  ∧ (∀ cmds, cmds ≡ₚ setKeys_commands → run_commands cmds ctx = setKeys ctx)
  ∧ length setKeys_commands = 16%nat.
Proof.
  split_and!.
  - intros key value. apply run_commands_lookup_in, setKeys_commands_NoDup.
  - intros key. apply run_commands_lookup_out.
  - intros ctx' Hout.
    by apply run_commands_same; [apply setKeys_commands_NoDup|..].
  - apply run_commands_same; [apply setKeys_commands_NoDup|done|].
    intros key. apply run_commands_lookup_out.
  - intros cmds Hperm. symmetry.
    by apply run_commands_same; [apply setKeys_commands_NoDup|..].
  - done.
Qed.

(** ** Concrete runs of the further properties *)

Lemma header_without_event_stream response :
  includes (str_or (headers_get response "content-type") "")
    "text/event-stream" = false →
  ¬ content_type_contains response "text/event-stream".
Proof. intros Hinc Hct%content_type_test. by rewrite Hinc in Hct. Qed.

Lemma makeChatRequest2_propagates_fetch_rejection_witness :
  outcome (makeChatRequest2 sample_getTextPart sample_generateUuid
             sample_stringify sample_role sample_processSSE plain_request
             (CancellationTokenRef 0)
             (endpoint_served_by (inr (Error "connect ECONNREFUSED"))))
  = Throw (Error "connect ECONNREFUSED").
Proof.
  exact (proj1 (makeChatRequest2_propagates_fetch_rejection sample_getTextPart
                  sample_generateUuid sample_stringify sample_role
                  sample_processSSE plain_request (CancellationTokenRef 0)
                  (endpoint_served_by (inr (Error "connect ECONNREFUSED")))
                  (Error "connect ECONNREFUSED") eq_refl)).
Defined.

Lemma makeChatRequest2_no_choices_witness :
  outcome (makeChatRequest2 sample_getTextPart sample_generateUuid
             sample_stringify sample_role sample_processSSE plain_request
             (CancellationTokenRef 0) (endpoint_served_by (inl reply_no_choices)))
  = Ok {| cr_type := Success; cr_value := ""; cr_requestId := "";
          cr_serverRequestId := ""; cr_usage := JSUndefined;
          cr_resolvedModel := "local-llm" |}.
Proof.
  refine (proj1 (makeChatRequest2_no_choices sample_getTextPart
                   sample_generateUuid sample_stringify sample_role
                   sample_processSSE plain_request (CancellationTokenRef 0)
                   (endpoint_served_by (inl reply_no_choices)) reply_no_choices
                   eq_refl eq_refl _ _ eq_refl)).
  - apply header_without_event_stream. reflexivity.
  - intros why. discriminate.
Defined.





Lemma makeChatRequest2_event_stream_witness :
  outcome (makeChatRequest2 sample_getTextPart sample_generateUuid
             sample_stringify sample_role sample_processSSE plain_request
             (CancellationTokenRef 0)
             (endpoint_served_by (inl reply_event_stream)))
  = Ok {| cr_type := Success; cr_value := "Hello"; cr_requestId := "";
          cr_serverRequestId := ""; cr_usage := JSUndefined;
          cr_resolvedModel := "local-llm" |}.
Proof.
  refine (proj2 (proj2 (makeChatRequest2_event_stream sample_getTextPart
                          sample_generateUuid sample_stringify sample_role
                          sample_processSSE plain_request
                          (CancellationTokenRef 0)
                          (endpoint_served_by (inl reply_event_stream))
                          reply_event_stream eq_refl eq_refl _))).
  apply content_type_test. reflexivity.
Defined.

Lemma auth_copilot_token_is_cached_witness :
  let first := getCopilotToken 1700000000000 None new_NullAuthenticationService in
  outcome first = Ok (createFakeToken 1700000000000)
  ∧ outcome (getCopilotToken 1800000000000 (Some true) (final first))
    = outcome first.
Proof.
  destruct (auth_copilot_token_is_cached new_NullAuthenticationService
              1700000000000 1800000000000 None (Some true) None)
    as (Hfirst & Hagain & _).
  - unfold valid_clock, date_range. lia.
  - unfold valid_clock, date_range. lia.
  - split; [exact (Hfirst eq_refl) | exact Hagain].
Defined.

Lemma manager_copilot_token_is_cached_witness :
  let first := manager_getCopilotToken sample_toISOString
                 1700000000000 1700000000001 None new_NullCopilotTokenManager in
  outcome first
  = Ok (manager_createFakeToken sample_toISOString 1700000000000 1700000000001)
  ∧ outcome (manager_getCopilotToken sample_toISOString
               1800000000000 1800000000002 (Some true) (final first))
    = outcome first
  ∧ quota_reset_date
      (token_info (manager_createFakeToken sample_toISOString
                     1700000000000 1700000000001))
    = sample_toISOString 1731536000001.
Proof.
  destruct (manager_copilot_token_is_cached sample_toISOString
              new_NullCopilotTokenManager 1700000000000 1700000000001
              1800000000000 1800000000002 None (Some true) None)
    as (Hfirst & Hagain & _ & _ & _ & _ & Hdate).
  - unfold date_range. lia.
  - unfold valid_clock, date_range. lia.
  - unfold date_range. lia.
  - unfold valid_clock, date_range. lia.
  - split_and!; [exact (Hfirst eq_refl) | exact Hagain | exact Hdate].
Defined.
